(** * CivicConnect: the civic-points ledger and the activity-verification workflow

    A shallow embedding of the civic part of the server:
    - [updateCivicRank] of the User model,
    - the schema validators of the CivicActivity and Notification models,
    - the handlers [approveActivity], [rejectActivity], [endorseActivity] and
      [getUserCivicStats] of the civic controller.

    Modelling conventions.
    - A JavaScript Number that holds a point total or an award is modelled in
      [Z].  The model is that of the code as long as the values are safe
      integers ([isSafeInteger]: magnitude at most 2^53 - 1), where a double
      holds every integer and adds without rounding; beyond that range the
      code rounds and the model does not, and the theorems that state a
      configured value or a sum assume the safe range.  [NaN] is kept apart
      ([JSNumber]).
    - Strings are [string]; one character stands for one UTF-16 code unit
      below 256, so that [String.length] is the [length] the [maxlength]
      validators read.
    - An ObjectId is a number; comparing two ids through [toString()] is
      equality of ids.
    - A handler is a program over the awaited store operations ([Prog]); it
      is given two semantics, a run to completion ([run]) and a run of several
      handlers interleaved at their awaits ([interleave]). *)

From Stdlib Require Import ZArith Lia Ascii String List.
From stdpp Require Import base option gmap list strings fin_maps pretty sorting.

Open Scope string_scope.
Open Scope Z_scope.

(** ** Identifiers, enumerations and numbers *)

Abbreviation ObjectId := N.

(** [status] of the CivicActivity schema: enum ['pending','approved','rejected']. *)
Inductive Status := pending | approved | rejected.

(** [civicRank] of the User schema, in the order of the enum. *)
Inductive Rank := Citizen | Helper | Champion | Hero | Legend.

#[global] Instance Status_eq_dec : EqDecision Status.
Proof. solve_decision. Defined.

#[global] Instance Rank_eq_dec : EqDecision Rank.
Proof. solve_decision. Defined.

(** Position of a rank in the enum; the order of the tiers. *)
Definition rank_index (r : Rank) : Z :=
  match r with
  | Citizen => 0 | Helper => 1 | Champion => 2 | Hero => 3 | Legend => 4
  end.

Definition rank_le (r1 r2 : Rank) : Prop := rank_index r1 <= rank_index r2.

(** What [parseInt] returns: [NaN] or an integer. *)
Inductive JSNumber := NaN | Int (z : Z).

(** [Number.MAX_SAFE_INTEGER] and [Number.isSafeInteger] on an integer. *)
Definition MAX_SAFE_INTEGER : Z := 2 ^ 53 - 1.

Definition isSafeInteger (z : Z) : bool :=
  (- MAX_SAFE_INTEGER <=? z) && (z <=? MAX_SAFE_INTEGER).

(** ** [parseInt(string)] with no radix, and [x || d] on its result *)

(** White space and line terminators skipped by [parseInt], among the code
    units below 256: TAB, LF, VT, FF, CR, SP and NBSP (U+00A0). *)
Definition is_white (c : ascii) : bool :=
  match nat_of_ascii c with
  | 9%nat | 10%nat | 11%nat | 12%nat | 13%nat | 32%nat | 160%nat => true
  | _ => false
  end.

Fixpoint trim_start (s : string) : string :=
  match s with
  | String c s' => if is_white c then trim_start s' else s
  | EmptyString => s
  end.

(** Value of [c] as a digit of radix [R], if it is one. *)
Definition digit_val (R : Z) (c : ascii) : option Z :=
  let n := Z.of_nat (nat_of_ascii c) in
  let v :=
    if (48 <=? n) && (n <=? 57) then Some (n - 48)
    else if (97 <=? n) && (n <=? 122) then Some (n - 87)
    else if (65 <=? n) && (n <=? 90) then Some (n - 55)
    else None in
  match v with
  | Some d => if d <? R then Some d else None
  | None => None
  end.

(** The longest prefix of radix-[R] digits, read as a number; [None] when the
    prefix is empty. *)
Fixpoint digits_prefix (R : Z) (s : string) (acc : option Z) : option Z :=
  match s with
  | EmptyString => acc
  | String c s' =>
      match digit_val R c with
      | Some d => digits_prefix R s' (Some (R * default 0 acc + d))
      | None => acc
      end
  end.

(** [parseInt(x)]: [x] is [None] for [undefined], whose string is
    ["undefined"].  Leading white space, an optional sign, an optional
    [0x]/[0X] prefix, then the digits.  The result is the mathematical value
    of the digits with the sign, which is the Number the code obtains
    whenever it is a safe integer. *)
Definition parseInt (x : option string) : JSNumber :=
  let inputString := match x with Some s => s | None => "undefined" end in
  let S0 := trim_start inputString in
  let '(sign, S1) :=
    match S0 with
    | String "-" r => (-1, r)
    | String "+" r => (1, r)
    | _ => (1, S0)
    end in
  let '(R, S2) :=
    match S1 with
    | String "0" (String "x" r) => (16, r)
    | String "0" (String "X" r) => (16, r)
    | _ => (10, S1)
    end in
  match digits_prefix R S2 None with
  | None => NaN
  | Some m => Int (sign * m)
  end.

(** [n || d]: [NaN] and [0] (also [-0]) are falsy. *)
Definition or_default (n : JSNumber) (d : Z) : Z :=
  match n with
  | NaN => d
  | Int z => if z =? 0 then d else z
  end.

(** [s || d] on a request field that is absent or a string: [undefined] and
    the empty string are falsy. *)
Definition str_or_default (s : option string) (d : string) : string :=
  match s with
  | None => d
  | Some EmptyString => d
  | Some r => r
  end.

(** [process.env]: the two variables the civic controller reads. *)
Record Env := {
  POINTS_PER_GOOD_DEED : option string;
  POINTS_PER_ENDORSEMENT : option string
}.

(** ** The documents *)

(** An element of [endorsements] of the CivicActivity schema. *)
Record Endorsement := {
  end_user : ObjectId;
  end_message : string;
  pointsGiven : Z;
  end_createdAt : Z
}.

(** A CivicActivity document.  Of the fields the civic handlers never read or
    write after creation (description, category, proof, location, date,
    hours) only the title is kept: the notifications quote it.  The
    [createdAt]/[updatedAt] stamps of [timestamps: true] are left out. *)
Record CivicActivity := {
  act_user : ObjectId;
  title : string;
  status : Status;
  pointsAwarded : Z;
  verifiedBy : option ObjectId;
  verifiedAt : option Z;
  rejectionReason : option string;
  endorsements : list Endorsement
}.

(** The part of a User document the civic handlers use. *)
Record User := {
  username : string;
  fullName : string;
  profilePicture : string;
  civicPoints : Z;
  civicRank : Rank
}.

#[global] Instance Endorsement_eq_dec : EqDecision Endorsement.
Proof. solve_decision. Defined.

#[global] Instance CivicActivity_eq_dec : EqDecision CivicActivity.
Proof. solve_decision. Defined.

#[global] Instance User_eq_dec : EqDecision User.
Proof. solve_decision. Defined.

(** [type] of the Notification schema. *)
Inductive NotificationType :=
| nt_like | nt_comment | nt_follow | nt_share
| nt_civic_approved | nt_civic_rejected | nt_endorsement | nt_message.

Record Notification := {
  recipient : ObjectId;
  sender : option ObjectId;
  ntype : NotificationType;
  civicActivity : ObjectId;
  ntf_message : string
}.

(** Payload of a ['notification'] event sent to a user's socket room. *)
Inductive SocketEvent :=
| ev_civic_approved (activity : ObjectId) (awarded : Z)
| ev_civic_rejected (activity : ObjectId) (reason : string)
| ev_endorsement (sender_id : ObjectId) (sender_username sender_fullName
                  sender_profilePicture : string) (activity : ObjectId) (awarded : Z).

(** ** Assignments to a loaded document, and what [save()] writes

    A document loaded by [findById] keeps track of the paths assigned since.
    An assignment marks its path as modified only when it changes the value
    the document holds.  [save()] validates the assigned values (the values
    that were loaded are taken to satisfy the schema) and writes the modified
    paths, and only them, to the stored document. *)

Inductive ActivityWrite :=
| set_status (s : Status)
| set_pointsAwarded (z : Z)
| set_verifiedBy (v : ObjectId)
| set_verifiedAt (t : Z)
| set_rejectionReason (r : string)
| push_endorsement (e : Endorsement).

Definition activity_write (w : ActivityWrite) (a : CivicActivity) : CivicActivity :=
  match w with
  | set_status s =>
      {| act_user := act_user a; title := title a;
         status := s; pointsAwarded := pointsAwarded a; verifiedBy := verifiedBy a;
         verifiedAt := verifiedAt a; rejectionReason := rejectionReason a;
         endorsements := endorsements a |}
  | set_pointsAwarded z =>
      {| act_user := act_user a; title := title a;
         status := status a; pointsAwarded := z; verifiedBy := verifiedBy a;
         verifiedAt := verifiedAt a; rejectionReason := rejectionReason a;
         endorsements := endorsements a |}
  | set_verifiedBy v =>
      {| act_user := act_user a; title := title a;
         status := status a; pointsAwarded := pointsAwarded a; verifiedBy := Some v;
         verifiedAt := verifiedAt a; rejectionReason := rejectionReason a;
         endorsements := endorsements a |}
  | set_verifiedAt t =>
      {| act_user := act_user a; title := title a;
         status := status a; pointsAwarded := pointsAwarded a; verifiedBy := verifiedBy a;
         verifiedAt := Some t; rejectionReason := rejectionReason a;
         endorsements := endorsements a |}
  | set_rejectionReason r =>
      {| act_user := act_user a; title := title a;
         status := status a; pointsAwarded := pointsAwarded a; verifiedBy := verifiedBy a;
         verifiedAt := verifiedAt a; rejectionReason := Some r;
         endorsements := endorsements a |}
  | push_endorsement e =>
      {| act_user := act_user a; title := title a;
         status := status a; pointsAwarded := pointsAwarded a; verifiedBy := verifiedBy a;
         verifiedAt := verifiedAt a; rejectionReason := rejectionReason a;
         endorsements := endorsements a ++ [e] |}
  end.

Inductive UserWrite :=
| set_civicPoints (z : Z)
| set_civicRank (r : Rank).

Definition user_write (w : UserWrite) (u : User) : User :=
  match w with
  | set_civicPoints z =>
      {| username := username u; fullName := fullName u;
         profilePicture := profilePicture u; civicPoints := z; civicRank := civicRank u |}
  | set_civicRank r =>
      {| username := username u; fullName := fullName u;
         profilePicture := profilePicture u; civicPoints := civicPoints u; civicRank := r |}
  end.

(** A loaded document: its [_id], its current value, the assignments made to
    it ([assigned]) and, of these, the ones that changed the value they found
    ([writes]: the modified paths, which [save()] sends).  A collection is a
    map from [_id] to the rest of the document. *)
Record Doc (A W : Type) :=
  mkDoc { doc_id : ObjectId; cur : A; assigned : list W; writes : list W }.
Arguments mkDoc {A W} _ _ _ _.
Arguments doc_id {A W} _.
Arguments cur {A W} _.
Arguments assigned {A W} _.
Arguments writes {A W} _.

Abbreviation ActivityDoc := (Doc CivicActivity ActivityWrite).
Abbreviation UserDoc := (Doc User UserWrite).

(** The document [findById] hands out: nothing assigned yet. *)
Definition hydrate {A W} (id : ObjectId) (a : A) : Doc A W := mkDoc id a [] [].

(** The modified paths after the assignment [w] to a document that holds
    [before]: the assignment is added when it changes the value. *)
Definition mark_modified {A W} `{EqDecision A} (apply : W -> A -> A) (w : W)
  (before : A) (ws : list W) : list W :=
  if decide (apply w before = before) then ws else ws ++ [w].

(** [doc.path = v] (or [doc.array.push(v)]): changes the local value, records
    the assignment and marks the path as modified when the value changed. *)
Definition assign {A W} `{EqDecision A} (apply : W -> A -> A) (w : W) (d : Doc A W)
  : Doc A W :=
  mkDoc (doc_id d) (apply w (cur d)) (assigned d ++ [w])
        (mark_modified apply w (cur d) (writes d)).

(** The stored document after the modified paths are written to it. *)
Definition write_back {A W} (apply : W -> A -> A) (ws : list W) (stored : A) : A :=
  fold_left (fun a w => apply w a) ws stored.

(** ** Schema validators that can fail on the paths the handlers assign

    [rejectionReason] and [endorsements.message] have [maxlength: 500]; so has
    [message] of a Notification.  The enums hold by typing. *)

Definition maxlength (n : nat) (s : string) : bool :=
  (String.length s <=? n)%nat.

Inductive Exn :=
| TypeError                       (* a property read on [null] *)
| ValidationError (path : string) (* a schema validator refused a path *)
| DocumentNotFoundError.          (* [save()] found no stored document *)

Definition validate_activity_write (w : ActivityWrite) : option Exn :=
  match w with
  | set_rejectionReason r =>
      if maxlength 500 r then None else Some (ValidationError "rejectionReason")
  | push_endorsement e =>
      if maxlength 500 (end_message e) then None
      else Some (ValidationError "endorsements.message")
  | _ => None
  end.

(** The first validator that fails, if any. *)
Fixpoint validate_writes {W} (v : W -> option Exn) (ws : list W) : option Exn :=
  match ws with
  | [] => None
  | w :: ws' => match v w with Some e => Some e | None => validate_writes v ws' end
  end.

Definition validate_notification (n : Notification) : option Exn :=
  if maxlength 500 (ntf_message n) then None else Some (ValidationError "message").

(** ** The store and the sockets *)

Record World := {
  activities : gmap ObjectId CivicActivity;
  users : gmap ObjectId User;
  notifications : list Notification;
  emitted : list (ObjectId * SocketEvent)
}.

Definition with_activities (m : gmap ObjectId CivicActivity) (w : World) : World :=
  {| activities := m; users := users w;
     notifications := notifications w; emitted := emitted w |}.

Definition with_users (m : gmap ObjectId User) (w : World) : World :=
  {| activities := activities w; users := m;
     notifications := notifications w; emitted := emitted w |}.

Definition with_notification (n : Notification) (w : World) : World :=
  {| activities := activities w; users := users w;
     notifications := notifications w ++ [n]; emitted := emitted w |}.

Definition with_emitted (room : ObjectId) (ev : SocketEvent) (w : World) : World :=
  {| activities := activities w; users := users w;
     notifications := notifications w; emitted := emitted w ++ [(room, ev)] |}.

(** A query [{ user, status }] on the CivicActivity collection. *)
Record Filter := { f_user : ObjectId; f_status : Status }.

Definition matches (f : Filter) (a : CivicActivity) : bool :=
  bool_decide (act_user a = f_user f) && bool_decide (status a = f_status f).

(** The documents of the collection. *)
Definition documents (w : World) : list CivicActivity :=
  snd <$> map_to_list (activities w).

(** The stages of the pipeline of [getUserCivicStats]:
    [$match], [$project { endorsementCount: { $size: '$endorsements' } }],
    [$group { _id: null, total: { $sum: '$endorsementCount' } }].  A [$group]
    over no document yields no group. *)
Definition stage_match (f : Filter) (docs : list CivicActivity) : list CivicActivity :=
  List.filter (matches f) docs.

Definition stage_project_size (docs : list CivicActivity) : list nat :=
  (fun a => length (endorsements a)) <$> docs.

Definition stage_group_sum (counts : list nat) : list nat :=
  match counts with
  | [] => []
  | _ => [fold_left Nat.add counts 0%nat]
  end.

(** ** Handlers as programs over the awaited operations *)

(** The operations of the models and of the socket server the handlers call.
    Each is one atomic step of the store; all but [io_emit] are awaited. *)
Inductive Op : Type -> Type :=
| CivicActivity_findById (id : ObjectId) : Op (option ActivityDoc)
| CivicActivity_save (d : ActivityDoc) : Op unit
| CivicActivity_countDocuments (f : Filter) : Op nat
| CivicActivity_aggregate (f : Filter) : Op (list nat)
| User_findById (id : ObjectId) : Op (option UserDoc)
| User_save (d : UserDoc) : Op unit
| Notification_create (n : Notification) : Op unit
| io_emit (room : ObjectId) (ev : SocketEvent) : Op unit.

(** What an operation does to the store, and what it returns or throws. *)
Definition exec {X} (op : Op X) (w : World) : World * (Exn + X) :=
  match op in Op X return World * (Exn + X) with
  | CivicActivity_findById id => (w, inr (hydrate id <$> activities w !! id))
  | CivicActivity_save d =>
      match validate_writes validate_activity_write (assigned d) with
      | Some e => (w, inl e)
      | None =>
          match activities w !! doc_id d with
          | None => (w, inl DocumentNotFoundError)
          | Some stored =>
              (with_activities
                 (<[doc_id d := write_back activity_write (writes d) stored]>
                    (activities w)) w,
               inr tt)
          end
      end
  | CivicActivity_countDocuments f =>
      (w, inr (length (stage_match f (documents w))))
  | CivicActivity_aggregate f =>
      (w, inr (stage_group_sum (stage_project_size (stage_match f (documents w)))))
  | User_findById id => (w, inr (hydrate id <$> users w !! id))
  | User_save d =>
      match users w !! doc_id d with
      | None => (w, inl DocumentNotFoundError)
      | Some stored =>
          (with_users
             (<[doc_id d := write_back user_write (writes d) stored]> (users w)) w,
           inr tt)
      end
  | Notification_create n =>
      match validate_notification n with
      | Some e => (w, inl e)
      | None => (with_notification n w, inr tt)
      end
  | io_emit room ev => (with_emitted room ev w, inr tt)
  end.

(** A handler body: it returns, throws, or calls an operation and goes on
    with what the operation returned or threw. *)
Inductive Prog (A : Type) : Type :=
| Ret (a : A)
| Throw (e : Exn)
| Call {X : Type} (op : Op X) (k : Exn + X -> Prog A).
Arguments Ret {A} _.
Arguments Throw {A} _.
Arguments Call {A X} _ _.

Fixpoint prog_bind {A B} (f : A -> Prog B) (p : Prog A) : Prog B :=
  match p with
  | Ret a => f a
  | Throw e => Throw e
  | Call op k => Call op (fun r => prog_bind f (k r))
  end.

#[global] Instance Prog_ret : MRet Prog := @Ret.
#[global] Instance Prog_bind : MBind Prog := @prog_bind.

(** [await op] (or a plain call of [op]): its value, or its exception thrown
    here. *)
Definition await {X} (op : Op X) : Prog X :=
  Call op (fun r => match r with inl e => Throw e | inr x => Ret x end).

(** [try { p } catch (error) { h error }]. *)
Fixpoint try_catch {A} (p : Prog A) (h : Exn -> Prog A) : Prog A :=
  match p with
  | Ret a => Ret a
  | Throw e => h e
  | Call op k => Call op (fun r => try_catch (k r) h)
  end.

(** A handler run to completion, no other handler in between. *)
Fixpoint run {A} (p : Prog A) (w : World) : World * (Exn + A) :=
  match p with
  | Ret a => (w, inr a)
  | Throw e => (w, inl e)
  | Call op k => let '(w', r) := exec op w in run (k r) w'
  end.

(** Several handlers in flight: the scheduler picks a handler, which performs
    its next operation; a handler that is done stays as it is. *)
Definition step {A} (i : nat) (c : list (Prog A) * World) : list (Prog A) * World :=
  match c.1 !! i with
  | Some (Call op k) => let '(w', r) := exec op c.2 in (<[i := k r]> c.1, w')
  | _ => c
  end.

Definition interleave {A} (schedule : list nat) (c : list (Prog A) * World)
  : list (Prog A) * World :=
  fold_left (fun c i => step i c) schedule c.

(** ** The User model: [updateCivicRank] *)

(** The branches of [updateCivicRank] on [points]. *)
Definition rankFor (points : Z) : Rank :=
  if points >=? 10000 then Legend
  else if points >=? 5000 then Hero
  else if points >=? 2000 then Champion
  else if points >=? 500 then Helper
  else Citizen.

Definition updateCivicRank (this : UserDoc) : UserDoc :=
  let points := civicPoints (cur this) in
  assign user_write (set_civicRank (rankFor points)) this.

(** ** The civic controller *)

(** What a handler reads of [req], and [Date.now()] at the call.  The ids are
    well-formed ObjectIds; a field of the body is absent or a string. *)
Record Request := {
  params_id : ObjectId;          (* req.params.id *)
  params_userId : ObjectId;      (* req.params.userId *)
  body_reason : option string;   (* req.body.reason *)
  body_message : option string;  (* req.body.message *)
  req_user : UserDoc;            (* req.user, the authenticated account *)
  now : Z                        (* Date.now() *)
}.

(** The JSON bodies the handlers send. *)
Inductive Body :=
| JMessage (message : string)
| JMessageActivity (message : string) (id : ObjectId) (activity : CivicActivity)
| JStats (points : Z) (rank : Rank)
         (totalActivities pendingActivities totalEndorsements : nat)
| JError (error : Exn).

Record Response := { statusCode : Z; body : Body }.

(** [res.status(code).json(b)] and [res.json(b)]. *)
Definition res_status (code : Z) (b : Body) : Response :=
  {| statusCode := code; body := b |}.
Definition res_json (b : Body) : Response := res_status 200 b.

(** The double quote of the notification texts. *)
Definition dquote : string := String (ascii_of_nat 34) EmptyString.

(** The template literals of the three notification messages; a number is
    printed in decimal. *)
Definition text_approved (title : string) (pointsToAward : Z) : string :=
  "Your civic activity " +:+ dquote +:+ title +:+ dquote
  +:+ " has been approved! You earned " +:+ pretty pointsToAward +:+ " Civic Points.".

Definition text_rejected (title rejectionReason : string) : string :=
  "Your civic activity " +:+ dquote +:+ title +:+ dquote
  +:+ " was not approved. Reason: " +:+ rejectionReason.

Definition text_endorsed (fullName : string) : string :=
  fullName +:+ " endorsed your civic activity!".

(** [parseInt(process.env.POINTS_PER_GOOD_DEED) || 100] *)
Definition pointsToAward (env : Env) : Z :=
  or_default (parseInt (POINTS_PER_GOOD_DEED env)) 100.

(** [parseInt(process.env.POINTS_PER_ENDORSEMENT) || 10] *)
Definition endorsementPoints (env : Env) : Z :=
  or_default (parseInt (POINTS_PER_ENDORSEMENT env)) 10.

Definition approveActivity (env : Env) (req : Request) : Prog Response :=
  try_catch
    (activity ← await (CivicActivity_findById (params_id req));
     match activity with
     | None => mret (res_status 404 (JMessage "Activity not found"))
     | Some activity =>
       if negb (bool_decide (status (cur activity) = pending)) then
         mret (res_status 400 (JMessage "Activity already processed"))
       else
         let pointsToAward := pointsToAward env in
         let activity := assign activity_write (set_status approved) activity in
         let activity := assign activity_write (set_pointsAwarded pointsToAward) activity in
         let activity :=
           assign activity_write (set_verifiedBy (doc_id (req_user req))) activity in
         let activity := assign activity_write (set_verifiedAt (now req)) activity in
         await (CivicActivity_save activity);;
         user ← await (User_findById (act_user (cur activity)));
         match user with
         | None => Throw TypeError
         | Some user =>
           let user :=
             assign user_write
               (set_civicPoints (civicPoints (cur user) + pointsToAward)) user in
           let user := updateCivicRank user in
           await (User_save user);;
           await (Notification_create
             {| recipient := doc_id user;
                sender := None;
                ntype := nt_civic_approved;
                civicActivity := doc_id activity;
                ntf_message := text_approved (title (cur activity)) pointsToAward |});;
           await (io_emit (doc_id user)
             (ev_civic_approved (doc_id activity) pointsToAward));;
           mret (res_json
             (JMessageActivity "Activity approved successfully" (doc_id activity) (cur activity)))
         end
     end)
    (fun error => mret (res_status 500 (JError error))).

Definition rejectActivity (req : Request) : Prog Response :=
  try_catch
    (let reason := body_reason req in
     activity ← await (CivicActivity_findById (params_id req));
     match activity with
     | None => mret (res_status 404 (JMessage "Activity not found"))
     | Some activity =>
       if negb (bool_decide (status (cur activity) = pending)) then
         mret (res_status 400 (JMessage "Activity already processed"))
       else
         let activity := assign activity_write (set_status rejected) activity in
         let activity :=
           assign activity_write
             (set_rejectionReason (str_or_default reason "Does not meet criteria"))
             activity in
         let activity :=
           assign activity_write (set_verifiedBy (doc_id (req_user req))) activity in
         let activity := assign activity_write (set_verifiedAt (now req)) activity in
         await (CivicActivity_save activity);;
         let rejectionReason := default EmptyString (rejectionReason (cur activity)) in
         await (Notification_create
           {| recipient := act_user (cur activity);
              sender := None;
              ntype := nt_civic_rejected;
              civicActivity := doc_id activity;
              ntf_message := text_rejected (title (cur activity)) rejectionReason |});;
         await (io_emit (act_user (cur activity))
           (ev_civic_rejected (doc_id activity) rejectionReason));;
         mret (res_json (JMessageActivity "Activity rejected" (doc_id activity) (cur activity)))
     end)
    (fun error => mret (res_status 500 (JError error))).

Definition endorseActivity (env : Env) (req : Request) : Prog Response :=
  try_catch
    (let message := body_message req in
     activity ← await (CivicActivity_findById (params_id req));
     match activity with
     | None => mret (res_status 404 (JMessage "Activity not found"))
     | Some activity =>
       if negb (bool_decide (status (cur activity) = approved)) then
         mret (res_status 400 (JMessage "Can only endorse approved activities"))
       else if bool_decide (act_user (cur activity) = doc_id (req_user req)) then
         mret (res_status 400 (JMessage "Cannot endorse your own activity"))
       else
         let alreadyEndorsed :=
           existsb (fun e => bool_decide (end_user e = doc_id (req_user req)))
                   (endorsements (cur activity)) in
         if alreadyEndorsed then
           mret (res_status 400 (JMessage "Already endorsed this activity"))
         else
           let endorsementPoints := endorsementPoints env in
           let activity :=
             assign activity_write
               (push_endorsement
                  {| end_user := doc_id (req_user req);
                     end_message := str_or_default message EmptyString;
                     pointsGiven := endorsementPoints;
                     end_createdAt := now req |})
               activity in
           await (CivicActivity_save activity);;
           user ← await (User_findById (act_user (cur activity)));
           match user with
           | None => Throw TypeError
           | Some user =>
             let user :=
               assign user_write
                 (set_civicPoints (civicPoints (cur user) + endorsementPoints)) user in
             let user := updateCivicRank user in
             await (User_save user);;
             await (Notification_create
               {| recipient := doc_id user;
                  sender := Some (doc_id (req_user req));
                  ntype := nt_endorsement;
                  civicActivity := doc_id activity;
                  ntf_message := text_endorsed (fullName (cur (req_user req))) |});;
             await (io_emit (doc_id user)
               (ev_endorsement (doc_id (req_user req)) (username (cur (req_user req)))
                  (fullName (cur (req_user req))) (profilePicture (cur (req_user req)))
                  (doc_id activity) endorsementPoints));;
             mret (res_json
               (JMessageActivity "Activity endorsed successfully" (doc_id activity) (cur activity)))
           end
     end)
    (fun error => mret (res_status 500 (JError error))).

(** [totalEndorsements[0]?.total || 0] *)
Definition first_total_or_0 (totalEndorsements : list nat) : nat :=
  match totalEndorsements with
  | [] => 0%nat
  | total :: _ => if (total =? 0)%nat then 0%nat else total
  end.

Definition getUserCivicStats (req : Request) : Prog Response :=
  try_catch
    (user ← await (User_findById (params_userId req));
     match user with
     | None => mret (res_status 404 (JMessage "User not found"))
     | Some user =>
       totalActivities ← await (CivicActivity_countDocuments
         {| f_user := doc_id user; f_status := approved |});
       pendingActivities ← await (CivicActivity_countDocuments
         {| f_user := doc_id user; f_status := pending |});
       totalEndorsements ← await (CivicActivity_aggregate
         {| f_user := doc_id user; f_status := approved |});
       mret (res_json
         (JStats (civicPoints (cur user)) (civicRank (cur user))
            totalActivities pendingActivities (first_total_or_0 totalEndorsements)))
     end)
    (fun error => mret (res_status 500 (JError error))).

(** The four civic operations as one type, for statements about all of them. *)
Inductive Operation :=
| Approve (env : Env) (req : Request)
| Reject (req : Request)
| Endorse (env : Env) (req : Request)
| Stats (req : Request).

Definition handler (o : Operation) : Prog Response :=
  match o with
  | Approve env req => approveActivity env req
  | Reject req => rejectActivity req
  | Endorse env req => endorseActivity env req
  | Stats req => getUserCivicStats req
  end.

(** The store after the operation ran to completion, and its response (a
    handler catches every exception, so one is always sent). *)
Definition perform (o : Operation) (w : World) : World * (Exn + Response) :=
  run (handler o) w.

(** The store after the operations ran one after the other, each to
    completion before the next starts. *)
Definition perform_all (os : list Operation) (w : World) : World :=
  fold_left (fun w o => (perform o w).1) os w.

(** ** The documents an operation leaves in the store *)

(** [a] after the four assignments of [approveActivity]. *)
Definition approved_by (verifier : ObjectId) (at_time pts : Z) (a : CivicActivity)
  : CivicActivity :=
  {| act_user := act_user a; title := title a; status := approved;
     pointsAwarded := pts; verifiedBy := Some verifier; verifiedAt := Some at_time;
     rejectionReason := rejectionReason a; endorsements := endorsements a |}.

(** [a] after the four assignments of [rejectActivity]. *)
Definition rejected_by (verifier : ObjectId) (at_time : Z) (reason : string)
  (a : CivicActivity) : CivicActivity :=
  {| act_user := act_user a; title := title a; status := rejected;
     pointsAwarded := pointsAwarded a; verifiedBy := Some verifier;
     verifiedAt := Some at_time; rejectionReason := Some reason;
     endorsements := endorsements a |}.

(** The endorsement [endorseActivity] pushes. *)
Definition endorsement_of (env : Env) (req : Request) : Endorsement :=
  {| end_user := doc_id (req_user req);
     end_message := str_or_default (body_message req) EmptyString;
     pointsGiven := endorsementPoints env;
     end_createdAt := now req |}.

(** [u] after [civicPoints += pts] and [updateCivicRank()]. *)
Definition award (pts : Z) (u : User) : User :=
  {| username := username u; fullName := fullName u;
     profilePicture := profilePicture u;
     civicPoints := civicPoints u + pts;
     civicRank := rankFor (civicPoints u + pts) |}.

(** The owner of every stored activity has an account (no handler of the
    server deletes an account). *)
Definition owners_have_accounts (w : World) : Prop :=
  forall id a, activities w !! id = Some a -> is_Some (users w !! act_user a).

(** Every stored account carries the rank of its points. *)
Definition ledger_consistent (w : World) : Prop :=
  forall id u, users w !! id = Some u -> civicRank u = rankFor (civicPoints u).

(** A string of [n] letters. *)
Definition letters (n : nat) : string := string_of_list_ascii (repeat "a"%char n).

(** The store after [approveActivity] saved the activity. *)
Definition after_approval (env : Env) (req : Request) (a : CivicActivity) (w : World)
  : World :=
  with_activities
    (<[params_id req :=
         approved_by (doc_id (req_user req)) (now req) (pointsToAward env) a]>
       (activities w)) w.

(** The store after [rejectActivity] saved the activity. *)
Definition after_rejection (req : Request) (a : CivicActivity) (w : World) : World :=
  with_activities
    (<[params_id req :=
         rejected_by (doc_id (req_user req)) (now req)
           (str_or_default (body_reason req) "Does not meet criteria") a]>
       (activities w)) w.

(** The store after [endorseActivity] saved the activity. *)
Definition after_endorsement (env : Env) (req : Request) (a : CivicActivity)
  (w : World) : World :=
  with_activities
    (<[params_id req := activity_write (push_endorsement (endorsement_of env req)) a]>
       (activities w)) w.

(** The store after the owner's account was saved with [pts] more points. *)
Definition after_award (pts : Z) (owner : ObjectId) (u : User) (w : World) : World :=
  with_users (<[owner := award pts u]> (users w)) w.

(** [activity.endorsements.some(e => e.user == req.user._id)] *)
Definition endorsed_before (req : Request) (a : CivicActivity) : bool :=
  existsb (fun e => bool_decide (end_user e = doc_id (req_user req)))
          (endorsements a).

(** [who] is among the endorsers of the approved activity [id], which is not
    [who]'s own. *)
Definition has_endorsed (who id : ObjectId) (w : World) : Prop :=
  exists b, activities w !! id = Some b /\ status b = approved /\
            act_user b <> who /\ who ∈ (end_user <$> endorsements b).

(** The configured value is absent, is no number, or parses to 0. *)
Definition falls_back (x : option string) : Prop :=
  x = None \/ parseInt x = NaN \/ parseInt x = Int 0.

(** ** A small store, for the examples *)

Definition alice : User :=
  {| username := "alice"; fullName := "Alice Ames"; profilePicture := "alice.png";
     civicPoints := 450; civicRank := Citizen |}.

Definition bob : User :=
  {| username := "bob"; fullName := "Bob Burns"; profilePicture := "bob.png";
     civicPoints := 0; civicRank := Citizen |}.

Definition carol : User :=
  {| username := "carol"; fullName := "Carol Cole"; profilePicture := "carol.png";
     civicPoints := 0; civicRank := Citizen |}.

(** A pending activity of alice (account 1). *)
Definition cleanup : CivicActivity :=
  {| act_user := 1%N; title := "Park cleanup"; status := pending; pointsAwarded := 0;
     verifiedBy := None; verifiedAt := None; rejectionReason := None;
     endorsements := [] |}.

(** Accounts 1, 2, 3 are alice, bob and carol; activity 10 is [cleanup]. *)
Definition sample_world : World :=
  {| activities := {[ 10%N := cleanup ]};
     users := <[1%N := alice]> (<[2%N := bob]> {[ 3%N := carol ]});
     notifications := []; emitted := [] |}.

(** A request on activity 10 by the account [actor]. *)
Definition request_by (actor : ObjectId) (u : User) (reason message : option string)
  : Request :=
  {| params_id := 10%N; params_userId := 1%N; body_reason := reason;
     body_message := message; req_user := hydrate actor u; now := 1700000000000 |}.

(** An account whose full name has 471 characters. *)
Definition dave : User :=
  {| username := "dave"; fullName := letters 471; profilePicture := "dave.png";
     civicPoints := 0; civicRank := Citizen |}.

Definition env_unset : Env :=
  {| POINTS_PER_GOOD_DEED := None; POINTS_PER_ENDORSEMENT := None |}.

Definition env_zero : Env :=
  {| POINTS_PER_GOOD_DEED := Some "0"; POINTS_PER_ENDORSEMENT := Some "0" |}.

Definition env_set : Env :=
  {| POINTS_PER_GOOD_DEED := Some "250"; POINTS_PER_ENDORSEMENT := Some "25" |}.

(** [sample_world] after carol approved activity 10 under [env_set]. *)
Definition approved_world : World :=
  (perform (Approve env_set (request_by 3%N carol None None)) sample_world).1.

(** ** Civic stats, in the words of the specification *)

(** The activities of [owner] whose status is [s]. *)
Definition activities_with_status (owner : ObjectId) (s : Status) (w : World)
  : list CivicActivity :=
  filter (fun a => act_user a = owner /\ status a = s) (documents w).

(** The sum of the lengths of the endorsement lists of [acts]. *)
Definition endorsements_received (acts : list CivicActivity) : nat :=
  sum_list ((fun a => length (endorsements a)) <$> acts).

(** An approved activity of account 1 with [n] endorsements (by accounts
    100, 101, ...). *)
Definition endorsed_activity (n : nat) : CivicActivity :=
  {| act_user := 1%N; title := "Food drive"; status := approved; pointsAwarded := 100;
     verifiedBy := Some 3%N; verifiedAt := Some 1700000000000; rejectionReason := None;
     endorsements :=
       (fun i => {| end_user := N.of_nat (100 + i); end_message := EmptyString;
                    pointsGiven := 10; end_createdAt := 1700000000001 |})
       <$> seq 0 n |}.

(** Account 1 has three approved activities, with 2, 0 and 5 endorsements, and
    the pending activity 10. *)
Definition stats_world : World :=
  {| activities :=
       <[11%N := endorsed_activity 2]>
         (<[12%N := endorsed_activity 0]>
            (<[13%N := endorsed_activity 5]> {[ 10%N := cleanup ]}));
     users := users sample_world;
     notifications := []; emitted := [] |}.

(** ** Overlapping handlers on one owner *)

(** bob's request on activity 12, an approved activity of alice in
    [stats_world] that nobody endorsed yet. *)
Definition endorse_12_by_bob : Request :=
  {| params_id := 12%N; params_userId := 1%N; body_reason := None;
     body_message := None; req_user := hydrate 2%N bob; now := 1700000000002 |}.

(** ** Two handlers, one after the other *)

(** The number of operations [p] performs from [w]. *)
Fixpoint calls {A} (p : Prog A) (w : World) : nat :=
  match p with
  | Call op k => let '(w', r) := exec op w in S (calls (k r) w')
  | _ => 0%nat
  end.

(** A handler that has run: it holds its value or its exception. *)
Definition finished {A} (r : Exn + A) : Prog A :=
  match r with
  | inl e => Throw e
  | inr a => Ret a
  end.

(** The schedule that lets handler 0 run to its end, then handler 1. *)
Definition one_after_the_other {A} (p0 p1 : Prog A) (w : World) : list nat :=
  replicate (calls p0 w) 0%nat ++ replicate (calls p1 (run p0 w).1) 1%nat.

(** The activity an approval or a rejection decides. *)
Definition decision_target (o : Operation) : option ObjectId :=
  match o with
  | Approve _ req | Reject req => Some (params_id req)
  | Endorse _ _ | Stats _ => None
  end.

(** The reason of a rejection passes the validator of the schema (an
    approval assigns no validated path). *)
Definition reason_fits (o : Operation) : Prop :=
  match o with
  | Reject req =>
      maxlength 500 (str_or_default (body_reason req) "Does not meet criteria") = true
  | _ => True
  end.

(** ** Proof automation *)

#[local] Arguments maxlength : simpl never.
#[local] Arguments mark_modified : simpl never.
#[local] Arguments write_back : simpl never.
#[local] Arguments text_approved : simpl never.
#[local] Arguments text_rejected : simpl never.
#[local] Arguments text_endorsed : simpl never.

(** Unfolds a handler and runs it up to the first lookup in the store. *)
Ltac start_run :=
  unfold perform, handler, approveActivity, rejectActivity, endorseActivity,
    getUserCivicStats; cbn.

(** * More of the server

    What follows covers more of the civic controller and, further down, the
    message controller and the follow toggle of the user controller. *)

(** ** The civic operations, outcome by outcome *)

(** Every way an operation can go, with the store and the response it gives. *)
Inductive Outcome (w : World) : Operation -> World -> Response -> Prop :=
| approve_404 env req :
    activities w !! params_id req = None ->
    Outcome w (Approve env req) w (res_status 404 (JMessage "Activity not found"))
| approve_400 env req a :
    activities w !! params_id req = Some a -> status a <> pending ->
    Outcome w (Approve env req) w (res_status 400 (JMessage "Activity already processed"))
| approve_no_owner env req a :
    activities w !! params_id req = Some a -> status a = pending ->
    users w !! act_user a = None ->
    Outcome w (Approve env req) (after_approval env req a w)
      (res_status 500 (JError TypeError))
| approve_no_notice env req a u :
    activities w !! params_id req = Some a -> status a = pending ->
    users w !! act_user a = Some u ->
    maxlength 500 (text_approved (title a) (pointsToAward env)) = false ->
    Outcome w (Approve env req)
      (after_award (pointsToAward env) (act_user a) u (after_approval env req a w))
      (res_status 500 (JError (ValidationError "message")))
| approve_200 env req a u :
    activities w !! params_id req = Some a -> status a = pending ->
    users w !! act_user a = Some u ->
    maxlength 500 (text_approved (title a) (pointsToAward env)) = true ->
    Outcome w (Approve env req)
      (with_emitted (act_user a)
         (ev_civic_approved (params_id req) (pointsToAward env))
         (with_notification
            {| recipient := act_user a; sender := None; ntype := nt_civic_approved;
               civicActivity := params_id req;
               ntf_message := text_approved (title a) (pointsToAward env) |}
            (after_award (pointsToAward env) (act_user a) u
               (after_approval env req a w))))
      (res_json (JMessageActivity "Activity approved successfully" (params_id req)
         (approved_by (doc_id (req_user req)) (now req) (pointsToAward env) a)))
| reject_404 req :
    activities w !! params_id req = None ->
    Outcome w (Reject req) w (res_status 404 (JMessage "Activity not found"))
| reject_400 req a :
    activities w !! params_id req = Some a -> status a <> pending ->
    Outcome w (Reject req) w (res_status 400 (JMessage "Activity already processed"))
| reject_invalid req a :
    activities w !! params_id req = Some a -> status a = pending ->
    maxlength 500 (str_or_default (body_reason req) "Does not meet criteria") = false ->
    Outcome w (Reject req) w (res_status 500 (JError (ValidationError "rejectionReason")))
| reject_no_notice req a :
    activities w !! params_id req = Some a -> status a = pending ->
    maxlength 500 (str_or_default (body_reason req) "Does not meet criteria") = true ->
    maxlength 500 (text_rejected (title a)
      (str_or_default (body_reason req) "Does not meet criteria")) = false ->
    Outcome w (Reject req) (after_rejection req a w)
      (res_status 500 (JError (ValidationError "message")))
| reject_200 req a :
    activities w !! params_id req = Some a -> status a = pending ->
    maxlength 500 (str_or_default (body_reason req) "Does not meet criteria") = true ->
    maxlength 500 (text_rejected (title a)
      (str_or_default (body_reason req) "Does not meet criteria")) = true ->
    Outcome w (Reject req)
      (with_emitted (act_user a)
         (ev_civic_rejected (params_id req)
            (str_or_default (body_reason req) "Does not meet criteria"))
         (with_notification
            {| recipient := act_user a; sender := None; ntype := nt_civic_rejected;
               civicActivity := params_id req;
               ntf_message := text_rejected (title a)
                 (str_or_default (body_reason req) "Does not meet criteria") |}
            (after_rejection req a w)))
      (res_json (JMessageActivity "Activity rejected" (params_id req)
         (rejected_by (doc_id (req_user req)) (now req)
            (str_or_default (body_reason req) "Does not meet criteria") a)))
| endorse_404 env req :
    activities w !! params_id req = None ->
    Outcome w (Endorse env req) w (res_status 404 (JMessage "Activity not found"))
| endorse_400_status env req a :
    activities w !! params_id req = Some a -> status a <> approved ->
    Outcome w (Endorse env req) w
      (res_status 400 (JMessage "Can only endorse approved activities"))
| endorse_400_own env req a :
    activities w !! params_id req = Some a -> status a = approved ->
    act_user a = doc_id (req_user req) ->
    Outcome w (Endorse env req) w
      (res_status 400 (JMessage "Cannot endorse your own activity"))
| endorse_400_again env req a :
    activities w !! params_id req = Some a -> status a = approved ->
    act_user a <> doc_id (req_user req) -> endorsed_before req a = true ->
    Outcome w (Endorse env req) w
      (res_status 400 (JMessage "Already endorsed this activity"))
| endorse_invalid env req a :
    activities w !! params_id req = Some a -> status a = approved ->
    act_user a <> doc_id (req_user req) -> endorsed_before req a = false ->
    maxlength 500 (str_or_default (body_message req) EmptyString) = false ->
    Outcome w (Endorse env req) w
      (res_status 500 (JError (ValidationError "endorsements.message")))
| endorse_no_owner env req a :
    activities w !! params_id req = Some a -> status a = approved ->
    act_user a <> doc_id (req_user req) -> endorsed_before req a = false ->
    maxlength 500 (str_or_default (body_message req) EmptyString) = true ->
    users w !! act_user a = None ->
    Outcome w (Endorse env req) (after_endorsement env req a w)
      (res_status 500 (JError TypeError))
| endorse_no_notice env req a u :
    activities w !! params_id req = Some a -> status a = approved ->
    act_user a <> doc_id (req_user req) -> endorsed_before req a = false ->
    maxlength 500 (str_or_default (body_message req) EmptyString) = true ->
    users w !! act_user a = Some u ->
    maxlength 500 (text_endorsed (fullName (cur (req_user req)))) = false ->
    Outcome w (Endorse env req)
      (after_award (endorsementPoints env) (act_user a) u
         (after_endorsement env req a w))
      (res_status 500 (JError (ValidationError "message")))
| endorse_200 env req a u :
    activities w !! params_id req = Some a -> status a = approved ->
    act_user a <> doc_id (req_user req) -> endorsed_before req a = false ->
    maxlength 500 (str_or_default (body_message req) EmptyString) = true ->
    users w !! act_user a = Some u ->
    maxlength 500 (text_endorsed (fullName (cur (req_user req)))) = true ->
    Outcome w (Endorse env req)
      (with_emitted (act_user a)
         (ev_endorsement (doc_id (req_user req)) (username (cur (req_user req)))
            (fullName (cur (req_user req))) (profilePicture (cur (req_user req)))
            (params_id req) (endorsementPoints env))
         (with_notification
            {| recipient := act_user a; sender := Some (doc_id (req_user req));
               ntype := nt_endorsement; civicActivity := params_id req;
               ntf_message := text_endorsed (fullName (cur (req_user req))) |}
            (after_award (endorsementPoints env) (act_user a) u
               (after_endorsement env req a w))))
      (res_json (JMessageActivity "Activity endorsed successfully" (params_id req)
         (activity_write (push_endorsement (endorsement_of env req)) a)))
| stats_404 req :
    users w !! params_userId req = None ->
    Outcome w (Stats req) w (res_status 404 (JMessage "User not found"))
| stats_200 req u resp :
    users w !! params_userId req = Some u ->
    perform (Stats req) w = (w, inr resp) -> statusCode resp = 200 ->
    Outcome w (Stats req) w resp.

(** The activity an operation works on. *)
Definition subject (o : Operation) : option ObjectId :=
  match o with
  | Approve _ req | Reject req | Endorse _ req => Some (params_id req)
  | Stats _ => None
  end.

(** ** What the activities of an account have earned *)

Definition sumZ (l : list Z) : Z := foldr Z.add 0 l.

(** The users who endorsed [a], in the order of the list. *)
Definition endorsers (a : CivicActivity) : list ObjectId :=
  end_user <$> endorsements a.

(** The points [a] has brought its owner: those of the approval and those of
    every endorsement. *)
Definition earned (a : CivicActivity) : Z :=
  (if bool_decide (status a = approved) then pointsAwarded a else 0)
  + sumZ (pointsGiven <$> endorsements a).

(** [earned a] when [a] belongs to [owner], and 0 otherwise. *)
Definition share (owner : ObjectId) (a : CivicActivity) : Z :=
  if bool_decide (act_user a = owner) then earned a else 0.

(** The points the stored activities of [owner] have earned. *)
Definition earnings (owner : ObjectId) (w : World) : Z :=
  sumZ ((fun a => if bool_decide (act_user a = owner) then earned a else 0)
          <$> documents w).

(** The points of every account are those its activities have earned. *)
Definition ledger_balanced (w : World) : Prop :=
  forall id u, users w !! id = Some u -> civicPoints u = earnings id w.

(** The points an operation awards when it goes through. *)
Definition awarded (o : Operation) : Z :=
  match o with
  | Approve env _ => pointsToAward env
  | Endorse env _ => endorsementPoints env
  | Reject _ | Stats _ => 0
  end.

(** The award of [o] and the points of every account, before the award and
    with it, are safe integers: the code adds them without rounding. *)
Definition award_is_exact (o : Operation) (w : World) : Prop :=
  isSafeInteger (awarded o) = true /\
  forall id u, users w !! id = Some u ->
    isSafeInteger (civicPoints u) = true /\
    isSafeInteger (civicPoints u + awarded o) = true.

(** [award_is_exact] for each of the operations [os], run one after the
    other from [w]. *)
Fixpoint awards_are_exact (os : list Operation) (w : World) : Prop :=
  match os with
  | [] => True
  | o :: os' => award_is_exact o w /\ awards_are_exact os' (perform o w).1
  end.

(** No user endorsed an activity twice, no owner endorsed an own activity,
    and only approved activities carry endorsements. *)
Definition endorsements_sound (w : World) : Prop :=
  forall id a, activities w !! id = Some a ->
    NoDup (endorsers a) /\ (act_user a ∉ endorsers a) /\
    (endorsements a <> [] -> status a = approved).

(** alice before she earned anything, and a store with her pending activity. *)
Definition alice0 : User :=
  {| username := "alice"; fullName := "Alice Ames"; profilePicture := "alice.png";
     civicPoints := 0; civicRank := Citizen |}.

Definition opening_world : World :=
  {| activities := {[ 10%N := cleanup ]};
     users := <[1%N := alice0]> (<[2%N := bob]> {[ 3%N := carol ]});
     notifications := []; emitted := [] |}.

(** ** The Message model and the message controller *)

(** [media.type] of the Message schema: enum ['image','video','file']. *)
Inductive MediaType := mt_image | mt_video | mt_file.

Record Media := {
  media_url : string;
  media_type : MediaType;
  media_publicId : string
}.

(** A Message document; [createdAt] is the stamp of [timestamps: true]. *)
Record Message := {
  msg_sender : ObjectId;
  msg_receiver : ObjectId;
  content : string;
  media : option Media;
  isRead : bool;
  readAt : option Z;
  createdAt : Z
}.

(** The two collections the message controller uses, the public ids the
    media host holds, and the ['newMessage'] events sent (room, message). *)
Record Chat := {
  members : gmap ObjectId User;
  messages : gmap ObjectId Message;
  assets : list string;
  delivered : list (ObjectId * ObjectId)
}.

(** [req.file], with what the media host answers when the file is uploaded:
    [secure_url] and [public_id], or nothing when the upload fails. *)
Record Upload := {
  mimetype : string;
  hosted : option (string * string)
}.

(** What is thrown inside a handler of the message controller. *)
Inductive ChatExn :=
| HostError                       (* the media host refused the call *)
| SchemaError (path : string)     (* a validator of the Message schema *)
| NullError.                      (* a property read on [null] *)

(** [{ partner, lastMessage, unreadCount }]; the partner is the populated
    account: its id with username, fullName and profilePicture. *)
Record Conversation := {
  partner : ObjectId;
  partner_profile : string * string * string;
  lastMessage : ObjectId * Message;
  unreadCount : nat
}.

Inductive ChatBody :=
| CMessage (message : string)
| CSent (id : ObjectId) (m : Message)
| CThread (thread : list (ObjectId * Message))
| CConversations (conversations : list Conversation)
| CError (error : ChatExn).

Record ChatResponse := { chat_status : Z; chat_body : ChatBody }.

Definition chat_res (code : Z) (b : ChatBody) : ChatResponse :=
  {| chat_status := code; chat_body := b |}.

(** What a handler of the message controller reads of [req], with
    [Date.now()] at the call. The ids of the route are well-formed ObjectIds
    (a malformed one makes the query throw, which is answered with 500). *)
Record ChatRequest := {
  chat_user : ObjectId;              (* req.user._id *)
  chat_params_id : ObjectId;         (* req.params.id *)
  chat_params_userId : ObjectId;     (* req.params.userId *)
  body_receiverId : option ObjectId; (* req.body.receiverId *)
  body_content : option string;      (* req.body.content *)
  chat_file : option Upload;         (* req.file *)
  destroy_ok : bool;                 (* the media host carries out a destroy *)
  chat_now : Z
}.

(** [!s] on a body field that is absent or a string. *)
Definition falsy (s : option string) : bool :=
  match s with
  | None | Some EmptyString => true
  | Some _ => false
  end.

(** The validators of [content]: [required] (an empty string is refused) and
    [maxlength: 2000]. *)
Definition validate_content (s : string) : option ChatExn :=
  match s with
  | EmptyString => Some (SchemaError "content")
  | _ => if maxlength 2000 s then None else Some (SchemaError "content")
  end.

(** The [_id] of a new document: one that no stored message has. *)
Definition new_id (c : Chat) : ObjectId := fresh (dom (messages c)).

Definition with_messages (m : gmap ObjectId Message) (c : Chat) : Chat :=
  {| members := members c; messages := m; assets := assets c;
     delivered := delivered c |}.

Definition with_asset (publicId : string) (c : Chat) : Chat :=
  {| members := members c; messages := messages c;
     assets := assets c ++ [publicId]; delivered := delivered c |}.

Definition without_asset (publicId : string) (c : Chat) : Chat :=
  {| members := members c; messages := messages c;
     assets := List.filter (fun p => negb (String.eqb p publicId)) (assets c);
     delivered := delivered c |}.

Definition with_delivered (room id : ObjectId) (c : Chat) : Chat :=
  {| members := members c; messages := messages c; assets := assets c;
     delivered := delivered c ++ [(room, id)] |}.

(** [sendMessage]: the checks, the upload of the file, [Message.create], the
    event to the receiver's room. *)
Definition sendMessage (req : ChatRequest) (c : Chat) : Chat * ChatResponse :=
  let receiverId := body_receiverId req in
  let content := body_content req in
  if falsy content && negb (bool_decide (is_Some (chat_file req))) then
    (c, chat_res 400 (CMessage "Message content or media is required"))
  else
    let receiver := rid ← receiverId; u ← members c !! rid; Some (rid, u) in
    match receiver with
    | None => (c, chat_res 404 (CMessage "Receiver not found"))
    | Some (receiverId, _) =>
        let uploaded :=
          match chat_file req with
          | None => inr (None, c)
          | Some file =>
              let isVideo := String.prefix "video/" (mimetype file) in
              match hosted file with
              | None => inl HostError
              | Some (secure_url, public_id) =>
                  inr (Some {| media_url := secure_url;
                               media_type := if isVideo then mt_video else mt_image;
                               media_publicId := public_id |},
                       with_asset public_id c)
              end
          end in
        match uploaded with
        | inl error => (c, chat_res 500 (CError error))
        | inr (media, c1) =>
            let message :=
              {| msg_sender := chat_user req; msg_receiver := receiverId;
                 content := str_or_default content EmptyString; media := media;
                 isRead := false; readAt := None; createdAt := chat_now req |} in
            match validate_content (str_or_default content EmptyString) with
            | Some error => (c1, chat_res 500 (CError error))
            | None =>
                let id := new_id c1 in
                let c2 := with_messages (<[id := message]> (messages c1)) c1 in
                (with_delivered receiverId id c2, chat_res 201 (CSent id message))
            end
        end
    end.

(** [{ sender: from, receiver: to, isRead: false }] *)
Definition unread_from (from to : ObjectId) (m : Message) : bool :=
  bool_decide (msg_sender m = from) && bool_decide (msg_receiver m = to)
  && negb (isRead m).

(** [Message.updateMany({ sender, receiver, isRead: false },
    { isRead: true, readAt: Date.now() })] *)
Definition mark_read (from to : ObjectId) (now : Z) (m : Message) : Message :=
  if unread_from from to m then
    {| msg_sender := msg_sender m; msg_receiver := msg_receiver m;
       content := content m; media := media m;
       isRead := true; readAt := Some now; createdAt := createdAt m |}
  else m.

Definition updateMany_read (from to : ObjectId) (now : Z) (c : Chat) : Chat :=
  with_messages (mark_read from to now <$> messages c) c.

(** [Message.countDocuments({ sender, receiver, isRead: false })] *)
Definition count_unread (from to : ObjectId) (c : Chat) : nat :=
  length (List.filter (fun im => unread_from from to im.2) (map_to_list (messages c))).

(** [$or: [{ sender: a, receiver: b }, { sender: b, receiver: a }]] *)
Definition exchanged_between (a b : ObjectId) (m : Message) : bool :=
  (bool_decide (msg_sender m = a) && bool_decide (msg_receiver m = b))
  || (bool_decide (msg_sender m = b) && bool_decide (msg_receiver m = a)).

(** [$or: [{ sender: a }, { receiver: a }]] *)
Definition involving (a : ObjectId) (m : Message) : bool :=
  bool_decide (msg_sender m = a) || bool_decide (msg_receiver m = a).

(** [.sort({ createdAt: 1 })] and [.sort({ createdAt: -1 })]; among equal
    stamps the order is the one the merge leaves. *)
Definition older_first (x y : ObjectId * Message) : Prop :=
  createdAt x.2 <= createdAt y.2.
Definition newer_first (x y : ObjectId * Message) : Prop :=
  createdAt y.2 <= createdAt x.2.

#[global] Instance older_first_dec x y : Decision (older_first x y).
Proof. unfold older_first. apply _. Defined.
#[global] Instance newer_first_dec x y : Decision (newer_first x y).
Proof. unfold newer_first. apply _. Defined.

Definition find_sorted (R : relation (ObjectId * Message))
  `{forall x y, Decision (R x y)} (q : Message -> bool) (c : Chat)
  : list (ObjectId * Message) :=
  merge_sort R (List.filter (fun im => q im.2) (map_to_list (messages c))).

(** [getConversation]: the messages exchanged_between the two users, oldest first, as
    they were before the partner's messages are marked as read. *)
Definition getConversation (req : ChatRequest) (c : Chat) : Chat * ChatResponse :=
  let thread :=
    find_sorted older_first (exchanged_between (chat_user req) (chat_params_userId req)) c in
  (updateMany_read (chat_params_userId req) (chat_user req) (chat_now req) c,
   chat_res 200 (CThread thread)).

Definition markAsRead (req : ChatRequest) (c : Chat) : Chat * ChatResponse :=
  (updateMany_read (chat_params_userId req) (chat_user req) (chat_now req) c,
   chat_res 200 (CMessage "Messages marked as read")).

(** The account a populated reference holds: username, fullName and
    profilePicture. *)
Definition profile_of (u : User) : string * string * string :=
  (username u, fullName u, profilePicture u).

(** [conversationsMap.has(partnerId)] and the [set] of a new key: a Map keeps
    its keys in the order they were set. *)
Definition map_has {V} (k : ObjectId) (map : list (ObjectId * V)) : bool :=
  existsb (fun kv => bool_decide (kv.1 = k)) map.

(** The [forEach] over the populated messages; reading [_id] of a reference
    that populated to [null] throws. *)
Fixpoint group_by_partner (me : ObjectId) (c : Chat)
  (msgs : list (ObjectId * Message)) (map : list (ObjectId * Conversation))
  : ChatExn + list (ObjectId * Conversation) :=
  match msgs with
  | [] => inr map
  | message :: rest =>
      match members c !! msg_sender message.2 with
      | None => inl NullError
      | Some sender =>
          if bool_decide (msg_sender message.2 = me) then
            match members c !! msg_receiver message.2 with
            | None => inl NullError
            | Some receiver =>
                let partnerId := msg_receiver message.2 in
                group_by_partner me c rest
                  (if map_has partnerId map then map
                   else map ++ [(partnerId,
                                 {| partner := partnerId;
                                    partner_profile := profile_of receiver;
                                    lastMessage := message;
                                    unreadCount := 0 |})])
            end
          else
            let partnerId := msg_sender message.2 in
            group_by_partner me c rest
              (if map_has partnerId map then map
               else map ++ [(partnerId,
                             {| partner := partnerId;
                                partner_profile := profile_of sender;
                                lastMessage := message;
                                unreadCount := 0 |})])
      end
  end.

(** The loop that fills in [unreadCount], and [Array.from(map.values())]. *)
Definition with_unread_counts (me : ObjectId) (c : Chat)
  (map : list (ObjectId * Conversation)) : list Conversation :=
  (fun kv =>
     {| partner := partner kv.2; partner_profile := partner_profile kv.2;
        lastMessage := lastMessage kv.2;
        unreadCount := count_unread kv.1 me c |}) <$> map.

Definition getConversations (req : ChatRequest) (c : Chat) : Chat * ChatResponse :=
  let messages := find_sorted newer_first (involving (chat_user req)) c in
  match group_by_partner (chat_user req) c messages [] with
  | inl error => (c, chat_res 500 (CError error))
  | inr conversationsMap =>
      (c, chat_res 200
            (CConversations (with_unread_counts (chat_user req) c conversationsMap)))
  end.

(** [deleteMessage]: only the sender deletes; the media goes first. *)
Definition deleteMessage (req : ChatRequest) (c : Chat) : Chat * ChatResponse :=
  match messages c !! chat_params_id req with
  | None => (c, chat_res 404 (CMessage "Message not found"))
  | Some message =>
      if negb (bool_decide (msg_sender message = chat_user req)) then
        (c, chat_res 403 (CMessage "Not authorized to delete this message"))
      else
        let destroyed :=
          match media message with
          | Some m =>
              if negb (String.eqb (media_publicId m) EmptyString) then
                if destroy_ok req then inr (without_asset (media_publicId m) c)
                else inl HostError
              else inr c
          | None => inr c
          end in
        match destroyed with
        | inl error => (c, chat_res 500 (CError error))
        | inr c1 =>
            (with_messages (delete (chat_params_id req) (messages c1)) c1,
             chat_res 200 (CMessage "Message deleted successfully"))
        end
  end.

(** The other party of a message that involves [me]. *)
Definition partner_of (me : ObjectId) (m : Message) : ObjectId :=
  if bool_decide (msg_sender m = me) then msg_receiver m else msg_sender m.

(** The senders and receivers of the stored messages have accounts. *)
Definition parties_known (c : Chat) : Prop :=
  forall id m, messages c !! id = Some m ->
    is_Some (members c !! msg_sender m) /\ is_Some (members c !! msg_receiver m).

(** The entry the [forEach] sets for the partner of [message]. *)
Definition entry_for (me : ObjectId) (c : Chat) (message : ObjectId * Message)
  : option Conversation :=
  u ← members c !! partner_of me message.2;
  Some {| partner := partner_of me message.2; partner_profile := profile_of u;
          lastMessage := message; unreadCount := 0 |}.

(** What the [forEach] adds to the Map it starts from. *)
Record Grouped (me : ObjectId) (c : Chat) (msgs : list (ObjectId * Message))
  (map extra : list (ObjectId * Conversation)) : Prop := {
  grouped_nodup : NoDup extra.*1;
  grouped_new : forall k, k ∈ extra.*1 -> k ∉ map.*1;
  grouped_all : forall x, x ∈ msgs ->
    partner_of me x.2 ∈ map.*1 \/ partner_of me x.2 ∈ extra.*1;
  grouped_first : forall k conv, (k, conv) ∈ extra ->
    entry_for me c (lastMessage conv) = Some conv /\ partner conv = k /\
    exists l1 l2, msgs = (l1 ++ lastMessage conv :: l2)%list /\
      forall y, y ∈ l1 -> partner_of me y.2 <> k;
  grouped_sub : (fun kv => lastMessage kv.2) <$> extra `sublist_of` msgs
}.

(** ** The user controller: [followUser] *)

(** A User document as the follow toggle uses it: the account and the two
    lists of the schema. *)
Record Member := {
  account : User;
  following : list ObjectId;
  followers : list ObjectId
}.

(** The User collection, the ['follow'] notifications created (recipient,
    sender) and the socket events sent (room, sender). *)
Record Network := {
  people : gmap ObjectId Member;
  follow_notices : list (ObjectId * ObjectId);
  follow_events : list (ObjectId * ObjectId)
}.

Record FollowRequest := {
  follow_params_id : ObjectId;  (* req.params.id *)
  follow_user : ObjectId        (* req.user._id *)
}.

Inductive FollowBody :=
| FMessage (message : string)
| FToggled (message : string) (isFollowing : bool)
| FNullError.                   (* a property read on [null], caught *)

Record FollowResponse := { follow_status : Z; follow_body : FollowBody }.

(** [array.includes(id)] on an array of ObjectIds. *)
Definition includes (l : list ObjectId) (id : ObjectId) : bool :=
  existsb (fun x => bool_decide (x = id)) l.

(** [array.filter(x => x.toString() !== id.toString())] *)
Definition without (id : ObjectId) (l : list ObjectId) : list ObjectId :=
  List.filter (fun x => negb (bool_decide (x = id))) l.

Definition set_following (l : list ObjectId) (m : Member) : Member :=
  {| account := account m; following := l; followers := followers m |}.

Definition set_followers (l : list ObjectId) (m : Member) : Member :=
  {| account := account m; following := following m; followers := l |}.

Definition followUser (req : FollowRequest) (n : Network) : Network * FollowResponse :=
  let userToFollow := people n !! follow_params_id req in
  let currentUser := people n !! follow_user req in
  match userToFollow with
  | None => (n, {| follow_status := 404; follow_body := FMessage "User not found" |})
  | Some userToFollow =>
      match currentUser with
      | None => (n, {| follow_status := 500; follow_body := FNullError |})
      | Some currentUser =>
          if bool_decide (follow_params_id req = follow_user req) then
            (n, {| follow_status := 400;
                   follow_body := FMessage "You cannot follow yourself" |})
          else
            let isFollowing := includes (following currentUser) (follow_params_id req) in
            if isFollowing then
              let currentUser :=
                set_following (without (follow_params_id req) (following currentUser))
                  currentUser in
              let userToFollow :=
                set_followers (without (follow_user req) (followers userToFollow))
                  userToFollow in
              ({| people := <[follow_params_id req := userToFollow]>
                              (<[follow_user req := currentUser]> (people n));
                  follow_notices := follow_notices n;
                  follow_events := follow_events n |},
               {| follow_status := 200;
                  follow_body := FToggled "Unfollowed successfully" false |})
            else
              let currentUser :=
                set_following (following currentUser ++ [follow_params_id req])
                  currentUser in
              let userToFollow :=
                set_followers (followers userToFollow ++ [follow_user req])
                  userToFollow in
              ({| people := <[follow_params_id req := userToFollow]>
                              (<[follow_user req := currentUser]> (people n));
                  follow_notices :=
                    follow_notices n ++ [(follow_params_id req, follow_user req)];
                  follow_events :=
                    follow_events n ++ [(follow_params_id req, follow_user req)] |},
               {| follow_status := 200;
                  follow_body := FToggled "Followed successfully" true |})
      end
  end.





(** ** A chat and a network of alice, bob and carol *)

Definition hello : Message :=
  {| msg_sender := 1%N; msg_receiver := 2%N; content := "Hello Bob"; media := None;
     isRead := false; readAt := None; createdAt := 1700000000000 |}.

Definition wave : Message :=
  {| msg_sender := 2%N; msg_receiver := 1%N; content := "Hello Alice";
     media := Some {| media_url := "https://media.example/wave.png";
                      media_type := mt_image;
                      media_publicId := "civicconnect/messages/wave" |};
     isRead := false; readAt := None; createdAt := 1700000000500 |}.

Definition noon : Message :=
  {| msg_sender := 3%N; msg_receiver := 1%N; content := "Meeting at noon";
     media := None; isRead := false; readAt := None; createdAt := 1700000000200 |}.

(** Messages 20, 21 and 22 between the accounts of [sample_world]. *)
Definition sample_chat : Chat :=
  {| members := users sample_world;
     messages := <[20%N := hello]> (<[21%N := wave]> {[ 22%N := noon ]});
     assets := ["civicconnect/messages/wave"];
     delivered := [] |}.

(** A request of [me] about the user [other] and the message 21. *)
Definition chat_request (me other : ObjectId) (text : option string)
  (file : option Upload) : ChatRequest :=
  {| chat_user := me; chat_params_id := 21%N; chat_params_userId := other;
     body_receiverId := Some other; body_content := text; chat_file := file;
     destroy_ok := true; chat_now := 1700000001000 |}.

Definition picture : Upload :=
  {| mimetype := "image/png";
     hosted := Some ("https://media.example/p.png", "civicconnect/messages/p") |}.

(** alice follows bob, and nobody else follows anybody. *)
Definition sample_network : Network :=
  {| people :=
       <[1%N := {| account := alice; following := [2%N]; followers := [] |}]>
         (<[2%N := {| account := bob; following := []; followers := [1%N] |}]>
            {[ 3%N := {| account := carol; following := []; followers := [] |} ]});
     follow_notices := []; follow_events := [] |}.
(** * Properties *)

(** ** [parseInt] and the rank thresholds on examples *)

Example parseInt_plain : parseInt (Some "250") = Int 250.
Proof. reflexivity. Qed.
Example parseInt_suffix : parseInt (Some "  -42px") = Int (-42).
Proof. reflexivity. Qed.
Example parseInt_hex : parseInt (Some "0x1F") = Int 31.
Proof. reflexivity. Qed.
Example parseInt_word : parseInt (Some "ten") = NaN.
Proof. reflexivity. Qed.
Example parseInt_undefined : parseInt None = NaN.
Proof. reflexivity. Qed.
Example parseInt_empty : parseInt (Some EmptyString) = NaN.
Proof. reflexivity. Qed.
Example parseInt_nbsp : parseInt (Some (String (ascii_of_nat 160) "250")) = Int 250.
Proof. reflexivity. Qed.

Example rank_boundaries :
  rankFor 499 = Citizen /\ rankFor 500 = Helper /\ rankFor 1999 = Helper /\
  rankFor 2000 = Champion /\ rankFor 4999 = Champion /\ rankFor 5000 = Hero /\
  rankFor 9999 = Hero /\ rankFor 10000 = Legend.
Proof. repeat split. Qed.

(** ** What [save()] writes to the document it was loaded from *)

Lemma write_back_mark_modified {A W} `{EqDecision A} (apply : W -> A -> A)
  (w : W) (before : A) (ws : list W) (stored : A) :
  write_back apply ws stored = before ->
  write_back apply (mark_modified apply w before ws) stored = apply w before.
Proof.
  intros E. unfold mark_modified. destruct (decide (apply w before = before)) as [Heq|Hne].
  - by rewrite E, Heq.
  - unfold write_back in *. rewrite fold_left_app. cbn. by rewrite E.
Qed.

(** Solves [write_back f ws stored = v] when [ws] are the paths modified by
    assignments to the document loaded from [stored]. *)
Ltac tracks :=
  lazymatch goal with
  | |- write_back ?f (mark_modified ?f ?w ?b ?ms) ?s = _ =>
      transitivity (f w b); [apply write_back_mark_modified; tracks | reflexivity]
  | |- _ => reflexivity
  end.

(** Rewrites what a save writes, in a goal, to the value the document holds. *)
Ltac saved :=
  match goal with
  | |- context [write_back ?f (mark_modified ?f ?w ?b ?ms) ?s] =>
      let E := fresh "E" in
      assert (E : write_back f (mark_modified f w b ms) s = f w b)
        by (apply write_back_mark_modified; tracks);
      rewrite E; clear E
  end.

(** ** What each handler does, case by case *)

Section ApproveCases.
Context (env : Env) (req : Request) (w : World).

Lemma approve_not_found :
  activities w !! params_id req = None ->
  perform (Approve env req) w
  = (w, inr (res_status 404 (JMessage "Activity not found"))).
Proof. intros H. start_run. rewrite H. reflexivity. Qed.

Lemma approve_processed a :
  activities w !! params_id req = Some a -> status a <> pending ->
  perform (Approve env req) w
  = (w, inr (res_status 400 (JMessage "Activity already processed"))).
Proof.
  intros H Hs. start_run. rewrite H. cbn.
  rewrite bool_decide_eq_false_2 by done. reflexivity.
Qed.

Lemma approve_owner_missing a :
  activities w !! params_id req = Some a -> status a = pending ->
  users w !! act_user a = None ->
  perform (Approve env req) w
  = (after_approval env req a w, inr (res_status 500 (JError TypeError))).
Proof.
  intros H Hs Hu. start_run. rewrite H. cbn.
  rewrite bool_decide_eq_true_2 by done. cbn. rewrite H. cbn. saved. rewrite Hu.
  reflexivity.
Qed.

Lemma approve_pending a u :
  activities w !! params_id req = Some a -> status a = pending ->
  users w !! act_user a = Some u ->
  let w2 := after_award (pointsToAward env) (act_user a) u
              (after_approval env req a w) in
  let n := {| recipient := act_user a; sender := None; ntype := nt_civic_approved;
              civicActivity := params_id req;
              ntf_message := text_approved (title a) (pointsToAward env) |} in
  perform (Approve env req) w
  = if maxlength 500 (ntf_message n)
    then (with_emitted (act_user a)
            (ev_civic_approved (params_id req) (pointsToAward env))
            (with_notification n w2),
          inr (res_json (JMessageActivity "Activity approved successfully"
                 (params_id req)
                 (approved_by (doc_id (req_user req)) (now req)
                    (pointsToAward env) a))))
    else (w2, inr (res_status 500 (JError (ValidationError "message")))).
Proof.
  intros H Hs Hu. start_run. rewrite H. cbn.
  rewrite bool_decide_eq_true_2 by done. cbn. rewrite H. cbn. saved.
  rewrite Hu. cbn. rewrite Hu. cbn. saved. unfold validate_notification. cbn.
  destruct (maxlength 500 _); reflexivity.
Qed.
End ApproveCases.

Section RejectCases.
Context (req : Request) (w : World).

Lemma reject_not_found :
  activities w !! params_id req = None ->
  perform (Reject req) w
  = (w, inr (res_status 404 (JMessage "Activity not found"))).
Proof. intros H. start_run. rewrite H. reflexivity. Qed.

Lemma reject_processed a :
  activities w !! params_id req = Some a -> status a <> pending ->
  perform (Reject req) w
  = (w, inr (res_status 400 (JMessage "Activity already processed"))).
Proof.
  intros H Hs. start_run. rewrite H. cbn.
  rewrite bool_decide_eq_false_2 by done. reflexivity.
Qed.

Lemma reject_reason_too_long a :
  activities w !! params_id req = Some a -> status a = pending ->
  maxlength 500 (str_or_default (body_reason req) "Does not meet criteria") = false ->
  perform (Reject req) w
  = (w, inr (res_status 500 (JError (ValidationError "rejectionReason")))).
Proof.
  intros H Hs Hl. start_run. rewrite H. cbn.
  rewrite bool_decide_eq_true_2 by done. cbn. rewrite Hl. reflexivity.
Qed.

Lemma reject_pending a :
  activities w !! params_id req = Some a -> status a = pending ->
  maxlength 500 (str_or_default (body_reason req) "Does not meet criteria") = true ->
  let reason := str_or_default (body_reason req) "Does not meet criteria" in
  let w1 := after_rejection req a w in
  let n := {| recipient := act_user a; sender := None; ntype := nt_civic_rejected;
              civicActivity := params_id req;
              ntf_message := text_rejected (title a) reason |} in
  perform (Reject req) w
  = if maxlength 500 (ntf_message n)
    then (with_emitted (act_user a) (ev_civic_rejected (params_id req) reason)
            (with_notification n w1),
          inr (res_json (JMessageActivity "Activity rejected" (params_id req)
                 (rejected_by (doc_id (req_user req)) (now req) reason a))))
    else (w1, inr (res_status 500 (JError (ValidationError "message")))).
Proof.
  intros H Hs Hl. start_run. rewrite H. cbn.
  rewrite bool_decide_eq_true_2 by done. cbn. rewrite Hl. cbn. rewrite H. cbn.
  saved. unfold validate_notification. cbn. clear Hl.
  destruct (maxlength 500 _); reflexivity.
Qed.
End RejectCases.

Section EndorseCases.
Context (env : Env) (req : Request) (w : World).

Lemma endorse_not_found :
  activities w !! params_id req = None ->
  perform (Endorse env req) w
  = (w, inr (res_status 404 (JMessage "Activity not found"))).
Proof. intros H. start_run. rewrite H. reflexivity. Qed.

Lemma endorse_not_approved a :
  activities w !! params_id req = Some a -> status a <> approved ->
  perform (Endorse env req) w
  = (w, inr (res_status 400 (JMessage "Can only endorse approved activities"))).
Proof.
  intros H Hs. start_run. rewrite H. cbn.
  rewrite bool_decide_eq_false_2 by done. reflexivity.
Qed.

Lemma endorse_own a :
  activities w !! params_id req = Some a -> status a = approved ->
  act_user a = doc_id (req_user req) ->
  perform (Endorse env req) w
  = (w, inr (res_status 400 (JMessage "Cannot endorse your own activity"))).
Proof.
  intros H Hs Ho. start_run. rewrite H. cbn.
  rewrite bool_decide_eq_true_2 by done. cbn.
  rewrite bool_decide_eq_true_2 by done. reflexivity.
Qed.

Lemma endorse_again a :
  activities w !! params_id req = Some a -> status a = approved ->
  act_user a <> doc_id (req_user req) ->
  endorsed_before req a = true ->
  perform (Endorse env req) w
  = (w, inr (res_status 400 (JMessage "Already endorsed this activity"))).
Proof.
  intros H Hs Ho He. start_run. rewrite H. cbn.
  rewrite bool_decide_eq_true_2 by done. cbn.
  rewrite bool_decide_eq_false_2 by done. cbn.
  unfold endorsed_before in He. rewrite He. reflexivity.
Qed.

Lemma endorse_message_too_long a :
  activities w !! params_id req = Some a -> status a = approved ->
  act_user a <> doc_id (req_user req) ->
  endorsed_before req a = false ->
  maxlength 500 (str_or_default (body_message req) EmptyString) = false ->
  perform (Endorse env req) w
  = (w, inr (res_status 500 (JError (ValidationError "endorsements.message")))).
Proof.
  intros H Hs Ho He Hl. start_run. rewrite H. cbn.
  rewrite bool_decide_eq_true_2 by done. cbn.
  rewrite bool_decide_eq_false_2 by done. cbn.
  unfold endorsed_before in He. rewrite He. cbn. rewrite Hl. reflexivity.
Qed.

Lemma endorse_owner_missing a :
  activities w !! params_id req = Some a -> status a = approved ->
  act_user a <> doc_id (req_user req) ->
  endorsed_before req a = false ->
  maxlength 500 (str_or_default (body_message req) EmptyString) = true ->
  users w !! act_user a = None ->
  perform (Endorse env req) w
  = (after_endorsement env req a w, inr (res_status 500 (JError TypeError))).
Proof.
  intros H Hs Ho He Hl Hu. start_run. rewrite H. cbn.
  rewrite bool_decide_eq_true_2 by done. cbn.
  rewrite bool_decide_eq_false_2 by done. cbn.
  unfold endorsed_before in He. rewrite He. cbn. rewrite Hl. cbn.
  rewrite H. cbn. saved. rewrite Hu. reflexivity.
Qed.

Lemma endorse_first a u :
  activities w !! params_id req = Some a -> status a = approved ->
  act_user a <> doc_id (req_user req) ->
  endorsed_before req a = false ->
  maxlength 500 (str_or_default (body_message req) EmptyString) = true ->
  users w !! act_user a = Some u ->
  let w2 := after_award (endorsementPoints env) (act_user a) u
              (after_endorsement env req a w) in
  let n := {| recipient := act_user a; sender := Some (doc_id (req_user req));
              ntype := nt_endorsement; civicActivity := params_id req;
              ntf_message := text_endorsed (fullName (cur (req_user req))) |} in
  perform (Endorse env req) w
  = if maxlength 500 (ntf_message n)
    then (with_emitted (act_user a)
            (ev_endorsement (doc_id (req_user req)) (username (cur (req_user req)))
               (fullName (cur (req_user req))) (profilePicture (cur (req_user req)))
               (params_id req) (endorsementPoints env))
            (with_notification n w2),
          inr (res_json (JMessageActivity "Activity endorsed successfully"
                 (params_id req)
                 (activity_write (push_endorsement (endorsement_of env req)) a))))
    else (w2, inr (res_status 500 (JError (ValidationError "message")))).
Proof.
  intros H Hs Ho He Hl Hu. start_run. rewrite H. cbn.
  rewrite bool_decide_eq_true_2 by done. cbn.
  rewrite bool_decide_eq_false_2 by done. cbn.
  unfold endorsed_before in He. rewrite He. cbn. rewrite Hl. cbn.
  rewrite H. cbn. saved. rewrite Hu. cbn. rewrite Hu. cbn. saved.
  unfold validate_notification. cbn. clear Hl.
  destruct (maxlength 500 _); reflexivity.
Qed.
End EndorseCases.

Section StatsCases.
Context (req : Request) (w : World).

Lemma stats_not_found :
  users w !! params_userId req = None ->
  perform (Stats req) w = (w, inr (res_status 404 (JMessage "User not found"))).
Proof. intros H. start_run. rewrite H. reflexivity. Qed.

Lemma stats_found u :
  users w !! params_userId req = Some u ->
  let of_status s := {| f_user := params_userId req; f_status := s |} in
  perform (Stats req) w
  = (w, inr (res_json
       (JStats (civicPoints u) (civicRank u)
          (length (stage_match (of_status approved) (documents w)))
          (length (stage_match (of_status pending) (documents w)))
          (first_total_or_0
             (stage_group_sum
                (stage_project_size
                   (stage_match (of_status approved) (documents w)))))))).
Proof. intros H. start_run. rewrite H. reflexivity. Qed.
End StatsCases.

(** ** A handler always answers *)

Lemma run_try_catch_responds {A} (p : Prog A) (h : Exn -> A) (w : World) :
  exists a, (run (try_catch p (fun e => Ret (h e))) w).2 = inr a.
Proof.
  revert w. induction p as [a|e|X op k IH]; intros w; cbn.
  - by exists a.
  - by exists (h e).
  - destruct (exec op w) as [w' r]. apply IH.
Qed.

Lemma perform_responds (o : Operation) (w : World) :
  exists response, (perform o w).2 = inr response.
Proof. destruct o; apply run_try_catch_responds. Qed.

(** ** The rank table *)

Lemma rankFor_cases p :
  (p < 500 /\ rankFor p = Citizen) \/
  (500 <= p < 2000 /\ rankFor p = Helper) \/
  (2000 <= p < 5000 /\ rankFor p = Champion) \/
  (5000 <= p < 10000 /\ rankFor p = Hero) \/
  (10000 <= p /\ rankFor p = Legend).
Proof.
  unfold rankFor.
  destruct (Z.geb_spec p 10000); [do 4 right; split; [lia | reflexivity]|].
  destruct (Z.geb_spec p 5000); [do 3 right; left; split; [lia | reflexivity]|].
  destruct (Z.geb_spec p 2000); [do 2 right; left; split; [lia | reflexivity]|].
  destruct (Z.geb_spec p 500); [right | ]; left; (split; [lia | reflexivity]).
Qed.

(** C3: on every point total [p >= 0] the rank is defined and is the one of
    the threshold table, lower bounds included: Citizen on [0,499], Helper on
    [500,1999], Champion on [2000,4999], Hero on [5000,9999], Legend from
    10000; the rank never decreases when the points grow; and this is the rank
    [updateCivicRank] stores, leaving the points as they are. *)
Theorem rank_table (p q : Z) :
  0 <= p -> p <= q ->
  (p <= 499 -> rankFor p = Citizen) /\
  (500 <= p <= 1999 -> rankFor p = Helper) /\
  (2000 <= p <= 4999 -> rankFor p = Champion) /\
  (5000 <= p <= 9999 -> rankFor p = Hero) /\
  (10000 <= p -> rankFor p = Legend) /\
  rank_le (rankFor p) (rankFor q) /\
  (forall this : UserDoc, civicPoints (cur this) = p ->
     civicRank (cur (updateCivicRank this)) = rankFor p /\
     civicPoints (cur (updateCivicRank this)) = p).
Proof.
  intros Hp Hpq.
  destruct (rankFor_cases p) as [[? Ep]|[[? Ep]|[[? Ep]|[[? Ep]|[? Ep]]]]];
  destruct (rankFor_cases q) as [[? Eq]|[[? Eq]|[[? Eq]|[[? Eq]|[? Eq]]]]];
  unfold rank_le; rewrite Ep, Eq; cbn;
  (repeat split; try lia; try (intros; congruence)).
  all: intros this <-; cbn; congruence.
Qed.

Lemma rank_table_witness :
  0 <= 1999 /\ 1999 <= 2000 /\
  rankFor 1999 = Helper /\ rank_le (rankFor 1999) (rankFor 2000).
Proof.
  pose proof (rank_table 1999 2000 ltac:(lia) ltac:(lia))
    as (_ & H & _ & _ & _ & Hle & _).
  split; [lia|]. split; [lia|]. split; [apply H; lia | exact Hle].
Defined.

(** ** The store after a decision or an endorsement went through *)

Lemma approve_pending_store env req w a u :
  activities w !! params_id req = Some a -> status a = pending ->
  users w !! act_user a = Some u ->
  activities (perform (Approve env req) w).1
  = <[params_id req :=
        approved_by (doc_id (req_user req)) (now req) (pointsToAward env) a]>
      (activities w)
  /\ users (perform (Approve env req) w).1
     = <[act_user a := award (pointsToAward env) u]> (users w).
Proof.
  intros Ha Hs Hu. rewrite (approve_pending env req w a u Ha Hs Hu). cbn.
  destruct (maxlength 500 _); split; reflexivity.
Qed.

Lemma reject_pending_store req w a :
  activities w !! params_id req = Some a -> status a = pending ->
  maxlength 500 (str_or_default (body_reason req) "Does not meet criteria") = true ->
  activities (perform (Reject req) w).1
  = <[params_id req :=
        rejected_by (doc_id (req_user req)) (now req)
          (str_or_default (body_reason req) "Does not meet criteria") a]>
      (activities w)
  /\ users (perform (Reject req) w).1 = users w.
Proof.
  intros Ha Hs Hl. rewrite (reject_pending req w a Ha Hs Hl). cbn. clear Hl.
  destruct (maxlength 500 _); split; reflexivity.
Qed.

Lemma endorse_first_store env req w a u :
  activities w !! params_id req = Some a -> status a = approved ->
  act_user a <> doc_id (req_user req) ->
  endorsed_before req a = false ->
  maxlength 500 (str_or_default (body_message req) EmptyString) = true ->
  users w !! act_user a = Some u ->
  activities (perform (Endorse env req) w).1
  = <[params_id req := activity_write (push_endorsement (endorsement_of env req)) a]>
      (activities w)
  /\ users (perform (Endorse env req) w).1
     = <[act_user a := award (endorsementPoints env) u]> (users w).
Proof.
  intros Ha Hs Ho He Hl Hu.
  rewrite (endorse_first env req w a u Ha Hs Ho He Hl Hu). cbn. clear Hl.
  destruct (maxlength 500 _); split; reflexivity.
Qed.

(** ** Accounts: what an operation can do to them *)

Lemma perform_users o w :
  users (perform o w).1 = users w \/
  exists id u pts, users w !! id = Some u /\
    users (perform o w).1 = <[id := award pts u]> (users w).
Proof.
  destruct o as [env req|req|env req|req].
  - destruct (activities w !! params_id req) as [a|] eqn:Ha;
      [|rewrite approve_not_found by done; by left].
    destruct (decide (status a = pending)) as [Hs|Hs];
      [|erewrite approve_processed by done; by left].
    destruct (users w !! act_user a) as [u|] eqn:Hu;
      [|erewrite approve_owner_missing by done; by left].
    right. exists (act_user a), u, (pointsToAward env). split; [done|].
    rewrite (approve_pending env req w a u Ha Hs Hu). cbn.
    destruct (maxlength 500 _); reflexivity.
  - destruct (activities w !! params_id req) as [a|] eqn:Ha;
      [|rewrite reject_not_found by done; by left].
    destruct (decide (status a = pending)) as [Hs|Hs];
      [|erewrite reject_processed by done; by left].
    destruct (maxlength 500
                (str_or_default (body_reason req) "Does not meet criteria")) eqn:Hl;
      [|erewrite reject_reason_too_long by done; by left].
    left. rewrite (reject_pending req w a Ha Hs Hl). cbn. clear Hl.
    destruct (maxlength 500 _); reflexivity.
  - destruct (activities w !! params_id req) as [a|] eqn:Ha;
      [|rewrite endorse_not_found by done; by left].
    destruct (decide (status a = approved)) as [Hs|Hs];
      [|erewrite endorse_not_approved by done; by left].
    destruct (decide (act_user a = doc_id (req_user req))) as [Ho|Ho];
      [erewrite endorse_own by done; by left|].
    destruct (endorsed_before req a) eqn:He;
      [erewrite endorse_again by done; by left|].
    destruct (maxlength 500 (str_or_default (body_message req) EmptyString)) eqn:Hl;
      [|erewrite endorse_message_too_long by done; by left].
    destruct (users w !! act_user a) as [u|] eqn:Hu;
      [|erewrite endorse_owner_missing by done; by left].
    right. exists (act_user a), u, (endorsementPoints env). split; [done|].
    rewrite (endorse_first env req w a u Ha Hs Ho He Hl Hu). cbn. clear Hl.
    destruct (maxlength 500 _); reflexivity.
  - destruct (users w !! params_userId req) as [u|] eqn:Hu;
      [erewrite stats_found by done|rewrite stats_not_found by done]; by left.
Qed.

Lemma perform_activities o w :
  activities (perform o w).1 = activities w \/
  exists id a a', activities w !! id = Some a /\ act_user a' = act_user a /\
    activities (perform o w).1 = <[id := a']> (activities w).
Proof.
  destruct o as [env req|req|env req|req].
  - destruct (activities w !! params_id req) as [a|] eqn:Ha;
      [|rewrite approve_not_found by done; by left].
    destruct (decide (status a = pending)) as [Hs|Hs];
      [|erewrite approve_processed by done; by left].
    right. exists (params_id req), a. eexists. split; [done|].
    destruct (users w !! act_user a) as [u|] eqn:Hu.
    + destruct (approve_pending_store env req w a u Ha Hs Hu) as [-> _]. split; [|reflexivity]; reflexivity.
    + rewrite (approve_owner_missing env req w a Ha Hs Hu).
      split; [|reflexivity]; reflexivity.
  - destruct (activities w !! params_id req) as [a|] eqn:Ha;
      [|rewrite reject_not_found by done; by left].
    destruct (decide (status a = pending)) as [Hs|Hs];
      [|erewrite reject_processed by done; by left].
    destruct (maxlength 500
                (str_or_default (body_reason req) "Does not meet criteria")) eqn:Hl;
      [|erewrite reject_reason_too_long by done; by left].
    right. exists (params_id req), a. eexists. split; [done|].
    destruct (reject_pending_store req w a Ha Hs Hl) as [-> _]. split; [|reflexivity]; reflexivity.
  - destruct (activities w !! params_id req) as [a|] eqn:Ha;
      [|rewrite endorse_not_found by done; by left].
    destruct (decide (status a = approved)) as [Hs|Hs];
      [|erewrite endorse_not_approved by done; by left].
    destruct (decide (act_user a = doc_id (req_user req))) as [Ho|Ho];
      [erewrite endorse_own by done; by left|].
    destruct (endorsed_before req a) eqn:He;
      [erewrite endorse_again by done; by left|].
    destruct (maxlength 500 (str_or_default (body_message req) EmptyString)) eqn:Hl;
      [|erewrite endorse_message_too_long by done; by left].
    right. exists (params_id req), a. eexists. split; [done|].
    destruct (users w !! act_user a) as [u|] eqn:Hu.
    + destruct (endorse_first_store env req w a u Ha Hs Ho He Hl Hu) as [-> _]. split; [|reflexivity]; reflexivity.
    + rewrite (endorse_owner_missing env req w a Ha Hs Ho He Hl Hu).
      split; [|reflexivity]; reflexivity.
  - destruct (users w !! params_userId req) as [u|] eqn:Hu;
      [erewrite stats_found by done|rewrite stats_not_found by done]; by left.
Qed.

(** No operation takes the account of an owner away. *)
Lemma perform_owners_have_accounts o w :
  owners_have_accounts w -> owners_have_accounts (perform o w).1.
Proof.
  intros Hw id a Ha.
  assert (Hkeep : forall k, is_Some (users w !! k) ->
                            is_Some (users (perform o w).1 !! k)).
  { intros k Hk.
    destruct (perform_users o w) as [->|(j & v & pts & _ & ->)]; [done|].
    destruct (decide (j = k)) as [->|Hjk].
    - rewrite lookup_insert_eq. by eexists.
    - by rewrite lookup_insert_ne. }
  apply Hkeep.
  destruct (perform_activities o w) as [E|(j & b & b' & Hb & Hown & E)];
    rewrite E in Ha.
  - by eapply Hw.
  - destruct (decide (j = id)) as [->|Hjk].
    + rewrite lookup_insert_eq in Ha. injection Ha as <-. rewrite Hown.
      by eapply Hw.
    + rewrite lookup_insert_ne in Ha by done. by eapply Hw.
Qed.

(** C1, as the code has it: after a civic operation that ran to completion
    with no other operation in between, every account whose stored record the
    operation changed (the points of an approval or of an endorsement)
    carries the rank of its new points; so does every account at all when the
    ranks were right before the operation. *)
Theorem rank_follows_points (o : Operation) (w : World) (id : ObjectId) (u' : User) :
  users (perform o w).1 !! id = Some u' ->
  users w !! id <> Some u' \/ ledger_consistent w ->
  civicRank u' = rankFor (civicPoints u').
Proof.
  intros Hu' Hw.
  destruct (perform_users o w) as [E|(k & v & pts & Hk & E)]; rewrite E in Hu'.
  - destruct Hw as [Hne|Hc]; [done | by eapply Hc].
  - destruct (decide (k = id)) as [->|Hk'].
    + rewrite lookup_insert_eq in Hu'. by inversion Hu'.
    + rewrite lookup_insert_ne in Hu' by done.
      destruct Hw as [Hne|Hc]; [done | by eapply Hc].
Qed.

Lemma rank_follows_points_witness :
  let o := Approve env_set (request_by 3%N carol None None) in
  users (perform o sample_world).1 !! 1%N = Some (award 250 alice) /\
  users sample_world !! 1%N <> Some (award 250 alice) /\
  civicRank (award 250 alice) = rankFor (civicPoints (award 250 alice)).
Proof.
  assert (H1 : users (perform (Approve env_set (request_by 3%N carol None None))
                  sample_world).1 !! 1%N = Some (award 250 alice))
    by (vm_compute; reflexivity).
  assert (H2 : users sample_world !! 1%N <> Some (award 250 alice))
    by (vm_compute; discriminate).
  split; [exact H1|]. split; [exact H2|].
  exact (rank_follows_points _ _ _ _ H1 (or_introl H2)).
Defined.

(** C1, as stated, fails.  [save()] writes the paths whose value changed in
    the handler's own copy of the document.  In [stats_world] alice has 450
    points and the rank Citizen; an approval of her activity 10 (250 points)
    and an endorsement of her activity 12 (25 points) both read her account
    before either saves it.  The approval saves 700 points and the rank
    Helper; the endorsement then saves 475 points and no rank, since Citizen
    is the rank its copy held already.  Both answer 200, and the account is
    left with 475 points and the rank Helper, where the table gives
    Citizen. *)
Lemma overlapping_awards_leave_stale_rank :
  let approve := approveActivity env_set (request_by 3%N carol None None) in
  let endorse := endorseActivity env_set endorse_12_by_bob in
  let c := interleave [0; 0; 0; 1; 1; 1; 0; 0; 0; 1; 1; 1]%nat
             ([approve; endorse], stats_world) in
  users stats_world !! 1%N = Some alice /\
  civicRank alice = rankFor (civicPoints alice) /\
  (exists r1 r2, c.1 = [Ret r1; Ret r2] /\
                 statusCode r1 = 200 /\ statusCode r2 = 200) /\
  (exists u', users c.2 !! 1%N = Some u' /\
              civicPoints u' = 475 /\ civicRank u' = Helper /\
              rankFor (civicPoints u') = Citizen /\
              civicRank u' <> rankFor (civicPoints u')).
Proof.
  vm_compute. repeat split.
  - eexists _, _. repeat split.
  - eexists. repeat split. discriminate.
Qed.

(** ** The configured amounts *)

Lemma or_default_nonzero n d : d <> 0 -> or_default n d <> 0.
Proof.
  intros Hd. destruct n as [|z]; cbn; [done|].
  destruct (Z.eqb_spec z 0); done.
Qed.

Lemma or_default_configured z d : z <> 0 -> or_default (Int z) d = z.
Proof. intros Hz. cbn. by destruct (Z.eqb_spec z 0). Qed.

Lemma or_default_falls_back x d : falls_back x -> or_default (parseInt x) d = d.
Proof. by intros [->|[->| ->]]. Qed.

(** C2, as the code has it: when the configured POINTS_PER_GOOD_DEED parses to
    an integer [n > 0], approving a pending activity whose owner has an account
    stores status approved, pointsAwarded [n], the verifier and the time of the
    decision, and adds exactly [n] to the owner's civicPoints; [n], the
    owner's points and their sum are safe integers, the range in which the
    code's Numbers are exact.  (A configured 0 is falsy, and [|| 100] replaces
    it by 100.) *)
Theorem approve_awards_configured_points
  (env : Env) (n : Z) (req : Request) (w : World) (a : CivicActivity) (u : User) :
  parseInt (POINTS_PER_GOOD_DEED env) = Int n -> 0 < n ->
  isSafeInteger n = true ->
  activities w !! params_id req = Some a -> status a = pending ->
  users w !! act_user a = Some u ->
  isSafeInteger (civicPoints u) = true ->
  isSafeInteger (civicPoints u + n) = true ->
  exists a' u',
    activities (perform (Approve env req) w).1 !! params_id req = Some a' /\
    users (perform (Approve env req) w).1 !! act_user a = Some u' /\
    status a' = approved /\
    pointsAwarded a' = n /\
    verifiedBy a' = Some (doc_id (req_user req)) /\
    verifiedAt a' = Some (now req) /\
    civicPoints u' = civicPoints u + n.
Proof.
  intros Hn Hpos _ Ha Hs Hu _ _.
  destruct (approve_pending_store env req w a u Ha Hs Hu) as [Ea Eu].
  assert (Hp : pointsToAward env = n).
  { unfold pointsToAward. rewrite Hn. apply or_default_configured. lia. }
  eexists _, _. rewrite Ea, Eu, !lookup_insert_eq, Hp.
  repeat split; reflexivity.
Qed.

Lemma approve_awards_configured_points_witness :
  exists a' u',
    activities (perform (Approve env_set (request_by 3%N carol None None))
                  sample_world).1 !! 10%N = Some a' /\
    users (perform (Approve env_set (request_by 3%N carol None None))
             sample_world).1 !! 1%N = Some u' /\
    status a' = approved /\
    pointsAwarded a' = 250 /\
    verifiedBy a' = Some 3%N /\
    verifiedAt a' = Some 1700000000000 /\
    civicPoints u' = 450 + 250.
Proof.
  apply (approve_awards_configured_points env_set 250
           (request_by 3%N carol None None) sample_world cleanup alice);
    [reflexivity | lia | reflexivity | reflexivity | reflexivity | reflexivity
    | reflexivity | reflexivity].
Defined.

(** C2, as stated, fails: with the configured constant 0, approving the
    pending activity 10 stores pointsAwarded 100 and adds 100 to the owner's
    points. *)
Lemma approve_zero_configured_awards_default :
  parseInt (POINTS_PER_GOOD_DEED env_zero) = Int 0 /\
  activities sample_world !! 10%N = Some cleanup /\
  status cleanup = pending /\
  users sample_world !! 1%N = Some alice /\
  let w' := (perform (Approve env_zero (request_by 3%N carol None None))
               sample_world).1 in
  pointsAwarded <$> activities w' !! 10%N = Some 100 /\
  civicPoints <$> users w' !! 1%N = Some (civicPoints alice + 100) /\
  100 <> 0.
Proof. vm_compute. repeat split; discriminate. Qed.

(** C10: when the configured constant is absent, is no number or parses to 0,
    an approval awards exactly 100 and an endorsement exactly 10: that amount
    is stored in the activity, and it is added to the owner's points (the
    points being safe integers before and after, so that the code adds
    without rounding); and whatever the configuration, the amount awarded is
    never 0. *)
Theorem fallback_awards_defaults
  (env : Env) (req : Request) (w : World) (a : CivicActivity) (u : User) :
  activities w !! params_id req = Some a ->
  users w !! act_user a = Some u ->
  (falls_back (POINTS_PER_GOOD_DEED env) -> status a = pending ->
     let w' := (perform (Approve env req) w).1 in
     pointsAwarded <$> activities w' !! params_id req = Some 100 /\
     (isSafeInteger (civicPoints u) = true ->
      isSafeInteger (civicPoints u + 100) = true ->
      civicPoints <$> users w' !! act_user a = Some (civicPoints u + 100))) /\
  (falls_back (POINTS_PER_ENDORSEMENT env) -> status a = approved ->
     act_user a <> doc_id (req_user req) -> endorsed_before req a = false ->
     maxlength 500 (str_or_default (body_message req) EmptyString) = true ->
     let w' := (perform (Endorse env req) w).1 in
     exists e,
       endorsements <$> activities w' !! params_id req = Some (endorsements a ++ [e])%list /\
       pointsGiven e = 10 /\
       (isSafeInteger (civicPoints u) = true ->
        isSafeInteger (civicPoints u + 10) = true ->
        civicPoints <$> users w' !! act_user a = Some (civicPoints u + 10))) /\
  (forall env' : Env, pointsToAward env' <> 0 /\ endorsementPoints env' <> 0).
Proof.
  intros Ha Hu. split; [|split].
  - intros Hf Hs w'. subst w'.
    destruct (approve_pending_store env req w a u Ha Hs Hu) as [-> ->].
    rewrite !lookup_insert_eq. unfold pointsToAward.
    rewrite (or_default_falls_back _ 100 Hf). split; [reflexivity|].
    intros _ _. reflexivity.
  - intros Hf Hs Ho He Hl w'. subst w'.
    destruct (endorse_first_store env req w a u Ha Hs Ho He Hl Hu) as [-> ->].
    rewrite !lookup_insert_eq. exists (endorsement_of env req). cbn.
    unfold endorsementPoints. rewrite (or_default_falls_back _ 10 Hf).
    repeat split; reflexivity.
  - intros env'. split; apply or_default_nonzero; lia.
Qed.

Lemma fallback_awards_defaults_witness :
  let req := request_by 3%N carol None None in
  let by_bob := request_by 2%N bob None None in
  falls_back (POINTS_PER_GOOD_DEED env_zero) /\
  falls_back (POINTS_PER_GOOD_DEED env_unset) /\
  falls_back (POINTS_PER_ENDORSEMENT env_zero) /\
  pointsAwarded <$> activities (perform (Approve env_zero req) sample_world).1 !! 10%N
  = Some 100 /\
  civicPoints <$> users (perform (Approve env_unset req) sample_world).1 !! 1%N
  = Some (450 + 100) /\
  (exists e,
     endorsements <$> activities (perform (Endorse env_zero by_bob) approved_world).1
                        !! 10%N = Some [e] /\
     pointsGiven e = 10 /\
     civicPoints <$> users (perform (Endorse env_zero by_bob) approved_world).1 !! 1%N
     = Some (700 + 10)).
Proof.
  intros req by_bob.
  assert (H0 : falls_back (POINTS_PER_GOOD_DEED env_zero))
    by (right; right; reflexivity).
  assert (H1 : falls_back (POINTS_PER_GOOD_DEED env_unset)) by (left; reflexivity).
  assert (H2 : falls_back (POINTS_PER_ENDORSEMENT env_zero))
    by (right; right; reflexivity).
  split; [exact H0|]. split; [exact H1|]. split; [exact H2|]. split; [|split].
  - exact (proj1 (proj1 (fallback_awards_defaults env_zero req sample_world cleanup
                           alice eq_refl eq_refl) H0 eq_refl)).
  - exact (proj2 (proj1 (fallback_awards_defaults env_unset req sample_world cleanup
                           alice eq_refl eq_refl) H1 eq_refl) eq_refl eq_refl).
  - assert (Ha : activities approved_world !! params_id by_bob
                 = Some (approved_by 3%N 1700000000000 250 cleanup))
      by (vm_compute; reflexivity).
    assert (Hu : users approved_world
                   !! act_user (approved_by 3%N 1700000000000 250 cleanup)
                 = Some (award 250 alice))
      by (vm_compute; reflexivity).
    destruct (proj1 (proj2 (fallback_awards_defaults env_zero by_bob approved_world
                              (approved_by 3%N 1700000000000 250 cleanup)
                              (award 250 alice) Ha Hu))
                H2 eq_refl ltac:(discriminate) eq_refl eq_refl)
      as (e & He & Hg & Hp).
    exists e. split; [exact He|]. split; [exact Hg|]. exact (Hp eq_refl eq_refl).
Defined.

(** C4: on an activity that is no longer pending, [approveActivity] and
    [rejectActivity] both answer 400 "Activity already processed", and the
    store after the call is the store before it: the activity, the owner's
    points and the owner's rank are as they were. *)
Theorem decided_activity_is_final
  (env : Env) (req : Request) (w : World) (a : CivicActivity) :
  activities w !! params_id req = Some a -> status a <> pending ->
  perform (Approve env req) w
  = (w, inr (res_status 400 (JMessage "Activity already processed"))) /\
  perform (Reject req) w
  = (w, inr (res_status 400 (JMessage "Activity already processed"))).
Proof.
  intros Ha Hs. split.
  - by eapply approve_processed.
  - by eapply reject_processed.
Qed.

Lemma decided_activity_is_final_witness :
  let req := request_by 3%N carol None None in
  perform (Approve env_zero req) approved_world
  = (approved_world, inr (res_status 400 (JMessage "Activity already processed"))) /\
  perform (Reject req) approved_world
  = (approved_world, inr (res_status 400 (JMessage "Activity already processed"))).
Proof.
  intros req.
  apply (decided_activity_is_final env_zero req approved_world
           (approved_by 3%N 1700000000000 250 cleanup));
    [vm_compute; reflexivity | discriminate].
Defined.

(** ** The civic operations, outcome by outcome *)

Lemma perform_outcome o w :
  exists w' resp, perform o w = (w', inr resp) /\ Outcome w o w' resp.
Proof.
  destruct o as [env req|req|env req|req].
  - destruct (activities w !! params_id req) as [a|] eqn:Ha;
      [|rewrite approve_not_found by done; eauto using Outcome].
    destruct (decide (status a = pending)) as [Hs|Hs];
      [|erewrite approve_processed by done; eauto using Outcome].
    destruct (users w !! act_user a) as [u|] eqn:Hu;
      [|erewrite approve_owner_missing by done; eauto using Outcome].
    rewrite (approve_pending env req w a u Ha Hs Hu). cbn zeta. cbn [ntf_message].
    destruct (maxlength 500 _) eqn:Hn; eauto using Outcome.
  - destruct (activities w !! params_id req) as [a|] eqn:Ha;
      [|rewrite reject_not_found by done; eauto using Outcome].
    destruct (decide (status a = pending)) as [Hs|Hs];
      [|erewrite reject_processed by done; eauto using Outcome].
    destruct (maxlength 500
                (str_or_default (body_reason req) "Does not meet criteria")) eqn:Hl;
      [|erewrite reject_reason_too_long by done; eauto using Outcome].
    rewrite (reject_pending req w a Ha Hs Hl). cbn zeta. cbn [ntf_message].
    destruct (maxlength 500 (text_rejected _ _)) eqn:Hn; eauto using Outcome.
  - destruct (activities w !! params_id req) as [a|] eqn:Ha;
      [|rewrite endorse_not_found by done; eauto using Outcome].
    destruct (decide (status a = approved)) as [Hs|Hs];
      [|erewrite endorse_not_approved by done; eauto using Outcome].
    destruct (decide (act_user a = doc_id (req_user req))) as [Ho|Ho];
      [erewrite endorse_own by done; eauto using Outcome|].
    destruct (endorsed_before req a) eqn:He;
      [erewrite endorse_again by done; eauto using Outcome|].
    destruct (maxlength 500 (str_or_default (body_message req) EmptyString)) eqn:Hl;
      [|erewrite endorse_message_too_long by done; eauto using Outcome].
    destruct (users w !! act_user a) as [u|] eqn:Hu;
      [|erewrite endorse_owner_missing by done; eauto 10 using Outcome].
    rewrite (endorse_first env req w a u Ha Hs Ho He Hl Hu). cbn zeta. cbn [ntf_message].
    destruct (maxlength 500 (text_endorsed _)) eqn:Hn; eauto 10 using Outcome.
  - destruct (users w !! params_userId req) as [u|] eqn:Hu.
    + rewrite (stats_found req w u Hu). cbn zeta. do 2 eexists. split; [done|].
      eapply stats_200; [done| |done]. by rewrite (stats_found req w u Hu).
    + rewrite stats_not_found by done; eauto using Outcome.
Qed.

Ltac outcome o w E H :=
  let w' := fresh "w'" in let resp := fresh "resp" in
  destruct (perform_outcome o w) as (w' & resp & E & H).

Lemma endorsed_before_elem req a :
  endorsed_before req a = false <-> doc_id (req_user req) ∉ endorsers a.
Proof.
  unfold endorsed_before, endorsers. induction (endorsements a) as [|e l IH]; cbn.
  - split; [intros _; apply not_elem_of_nil | done].
  - rewrite not_elem_of_cons, orb_false_iff, IH, bool_decide_eq_false.
    split; intros [? ?]; split; auto.
Qed.

(** The activity stored at [id] after an operation, as a function of the
    one stored before. *)
Lemma perform_activity (o : Operation) (w : World) (id : ObjectId) (a : CivicActivity) :
  activities w !! id = Some a ->
  exists a', activities (perform o w).1 !! id = Some a' /\
    (a' = a \/
     (status a = pending /\ exists v t pts, a' = approved_by v t pts a) \/
     (status a = pending /\ exists v t r, a' = rejected_by v t r a) \/
     (status a = approved /\ exists e,
        a' = activity_write (push_endorsement e) a /\
        end_user e <> act_user a /\ (end_user e ∉ endorsers a))).
Proof.
  intros Ha. outcome o w E H. rewrite E. cbn [fst].
  inversion H; subst; cbn; try (exists a; split; [done | by left]);
    (destruct (decide (params_id req = id)) as [<-|Hne];
     [rewrite lookup_insert_eq
     |rewrite lookup_insert_ne by done; exists a; split; [done | by left]]);
    simplify_eq; (eexists; split; [reflexivity|]).
  1-3: right; left; split; [done|]; by eexists _, _, _.
  1-2: right; right; left; split; [done|]; by eexists _, _, _.
  all: right; right; right; split; [done|]; eexists; split; [reflexivity|];
    split; [cbn; congruence | by apply endorsed_before_elem].
Qed.

(** ** Endorsements *)

Lemma str_or_default_fits (s : option string) (d : string) (n : nat) :
  (forall r, s = Some r -> (String.length r <= n)%nat) ->
  (String.length d <= n)%nat ->
  maxlength n (str_or_default s d) = true.
Proof.
  intros Hs Hd. unfold maxlength. apply Nat.leb_le.
  destruct s as [[|c r]|]; cbn [str_or_default]; [exact Hd | | exact Hd].
  by apply Hs.
Qed.

Lemma endorsed_before_after_push env req req2 a :
  doc_id (req_user req2) = doc_id (req_user req) ->
  endorsed_before req2
    (activity_write (push_endorsement (endorsement_of env req)) a) = true.
Proof.
  intros Hid. unfold endorsed_before. cbn. rewrite existsb_app. cbn.
  rewrite (bool_decide_eq_true_2 _ (eq_sym Hid)). apply orb_true_intro. right.
  reflexivity.
Qed.

Lemma has_endorsed_perform (o : Operation) (w : World) (who id : ObjectId) :
  has_endorsed who id w -> has_endorsed who id (perform o w).1.
Proof.
  intros (b & Hb & Hs & Ho & Hin).
  destruct (perform_activity o w id b Hb)
    as (b' & Hb' & [->|[[? _]|[[? _]|(_ & e & -> & _)]]]); try congruence.
  - by exists b.
  - eexists. split; [exact Hb'|]. cbn. repeat split; try done.
    rewrite fmap_app, elem_of_app. by left.
Qed.

Lemma has_endorsed_perform_all (os : list Operation) (w : World) (who id : ObjectId) :
  has_endorsed who id w -> has_endorsed who id (perform_all os w).
Proof.
  revert w. induction os as [|o os IH]; intros w H; [exact H|].
  apply (IH (perform o w).1). by apply has_endorsed_perform.
Qed.

Lemma has_endorsed_refused (env : Env) (req : Request) (w : World) :
  has_endorsed (doc_id (req_user req)) (params_id req) w ->
  perform (Endorse env req) w
  = (w, inr (res_status 400 (JMessage "Already endorsed this activity"))).
Proof.
  intros (b & Hb & Hs & Ho & Hin). apply (endorse_again env req w b Hb Hs Ho).
  destruct (endorsed_before req b) eqn:He; [reflexivity|].
  apply endorsed_before_elem in He. done.
Qed.

(** C5, as the code has it: on an approved activity whose owner has an
    account, the first endorsement by a user who is not the owner, with a
    message of at most 500 characters, is stored: it appends exactly one
    endorsement, carrying the endorsement points, and adds these points once to
    the owner's civicPoints (the points, the owner's total and their sum being
    safe integers), nothing else in the two collections changing; it answers
    200 when the notification text fits the schema, and 500 after the two
    saves otherwise.  Whatever operations run after it, one after the other,
    any later attempt by the same user on the same activity answers 400
    "Already endorsed this activity" and leaves the store as it is: nothing
    appended, no points. *)
Theorem first_endorsement_then_conflict
  (env env2 : Env) (req req2 : Request) (w : World) (a : CivicActivity) (u : User)
  (later : list Operation) :
  activities w !! params_id req = Some a -> status a = approved ->
  act_user a <> doc_id (req_user req) ->
  endorsed_before req a = false ->
  users w !! act_user a = Some u ->
  (forall m, body_message req = Some m -> (String.length m <= 500)%nat) ->
  isSafeInteger (endorsementPoints env) = true ->
  isSafeInteger (civicPoints u) = true ->
  isSafeInteger (civicPoints u + endorsementPoints env) = true ->
  params_id req2 = params_id req ->
  doc_id (req_user req2) = doc_id (req_user req) ->
  let first := perform (Endorse env req) w in
  let e := endorsement_of env req in
  let a' := activity_write (push_endorsement e) a in
  let since := perform_all later first.1 in
  end_user e = doc_id (req_user req) /\
  pointsGiven e = endorsementPoints env /\
  endorsements a' = (endorsements a ++ [e])%list /\
  activities first.1 = <[params_id req := a']> (activities w) /\
  users first.1
  = <[act_user a :=
        {| username := username u; fullName := fullName u;
           profilePicture := profilePicture u;
           civicPoints := civicPoints u + endorsementPoints env;
           civicRank := rankFor (civicPoints u + endorsementPoints env) |}]>
      (users w) /\
  first.2
  = inr (if maxlength 500 (text_endorsed (fullName (cur (req_user req))))
         then res_json (JMessageActivity "Activity endorsed successfully"
                          (params_id req) a')
         else res_status 500 (JError (ValidationError "message"))) /\
  perform (Endorse env2 req2) since
  = (since, inr (res_status 400 (JMessage "Already endorsed this activity"))).
Proof.
  intros Ha Hs Ho He Hu Hm _ _ _ Hid Hwho first e a' since.
  assert (Hl : maxlength 500 (str_or_default (body_message req) EmptyString) = true)
    by (apply str_or_default_fits; [exact Hm | cbn; lia]).
  destruct (endorse_first_store env req w a u Ha Hs Ho He Hl Hu) as [Ea Eu].
  fold first in Ea, Eu.
  do 3 (split; [reflexivity|]). split; [exact Ea|]. split; [exact Eu|]. split.
  - unfold first.
    rewrite (endorse_first env req w a u Ha Hs Ho He Hl Hu). cbn zeta.
    cbn [ntf_message]. by destruct (maxlength 500 (text_endorsed _)).
  - apply has_endorsed_refused. rewrite Hid, Hwho.
    apply has_endorsed_perform_all. exists a'. split; [|split; [|split]].
    + rewrite Ea. apply lookup_insert_eq.
    + exact Hs.
    + exact Ho.
    + cbn. rewrite fmap_app, elem_of_app. right. cbn. by left.
Qed.

Lemma first_endorsement_then_conflict_witness :
  let req := request_by 2%N bob None (Some "Well done") in
  let req2 := request_by 2%N bob None (Some "Again") in
  let by_carol := Endorse env_set (request_by 3%N carol None None) in
  let first := perform (Endorse env_set req) approved_world in
  let since := perform_all [by_carol] first.1 in
  civicPoints <$> users first.1 !! 1%N = Some (450 + 250 + 25) /\
  (exists r, first.2 = inr r /\ statusCode r = 200) /\
  perform (Endorse env_zero req2) since
  = (since, inr (res_status 400 (JMessage "Already endorsed this activity"))).
Proof.
  intros req req2 by_carol first since.
  assert (Hm : forall m, body_message req = Some m -> (String.length m <= 500)%nat)
    by (intros m [= <-]; vm_compute; lia).
  pose proof (first_endorsement_then_conflict env_set env_zero req req2
                approved_world (approved_by 3%N 1700000000000 250 cleanup)
                (award 250 alice) [by_carol]
                ltac:(vm_compute; reflexivity) eq_refl ltac:(discriminate) eq_refl
                ltac:(vm_compute; reflexivity) Hm eq_refl eq_refl eq_refl
                eq_refl eq_refl)
    as (_ & _ & _ & _ & Eu & Er & Hsecond).
  split; [|split; [|exact Hsecond]].
  - fold first in Eu. rewrite Eu. vm_compute. reflexivity.
  - fold first in Er. rewrite Er. eexists. split; [reflexivity|].
    vm_compute. reflexivity.
Defined.

(** C5, as stated, fails.  On the approved activity 10 of alice, the first
    endorsement by bob with a message of 501 characters answers 500 (the
    [maxlength] validator of the schema refuses the message) and stores
    nothing; the first endorsement by dave, whose full name has 471
    characters, is stored and awarded, but answers 500: the notification text
    is refused after the two saves.  And two attempts by bob that both read
    the activity before either saves both answer 200: bob is stored twice
    among the endorsers, and the owner is awarded twice. *)
Lemma first_refused_and_second_accepted :
  let long_message := request_by 2%N bob None (Some (letters 501)) in
  let long_name := request_by 4%N dave None None in
  let by_bob := endorseActivity env_set (request_by 2%N bob None None) in
  let twice := interleave [0; 1; 0; 1; 0; 0; 0; 0; 1; 1; 1; 1]%nat
                 ([by_bob; by_bob], approved_world) in
  status <$> activities approved_world !! 10%N = Some approved /\
  act_user <$> activities approved_world !! 10%N = Some 1%N /\
  endorsements <$> activities approved_world !! 10%N = Some [] /\
  civicPoints <$> users approved_world !! 1%N = Some 700 /\
  perform (Endorse env_set long_message) approved_world
  = (approved_world,
     inr (res_status 500 (JError (ValidationError "endorsements.message")))) /\
  (perform (Endorse env_set long_name) approved_world).2
  = inr (res_status 500 (JError (ValidationError "message"))) /\
  civicPoints <$> users (perform (Endorse env_set long_name) approved_world).1 !! 1%N
  = Some 725 /\
  (exists r1 r2, twice.1 = [Ret r1; Ret r2] /\
                 statusCode r1 = 200 /\ statusCode r2 = 200) /\
  (fun a => end_user <$> endorsements a) <$> activities twice.2 !! 10%N
  = Some [2%N; 2%N] /\
  civicPoints <$> users twice.2 !! 1%N = Some (700 + 25 + 25).
Proof.
  vm_compute. repeat split. eexists _, _. repeat split.
Qed.

(** C6, as the code has it: an endorsement attempt by the owner of the
    activity always fails with status 400 and changes nothing; the message is
    "Cannot endorse your own activity" when the activity is approved, and
    "Can only endorse approved activities" when it is pending or rejected (the
    status is checked first). *)
Theorem self_endorsement_fails
  (env : Env) (req : Request) (w : World) (a : CivicActivity) :
  activities w !! params_id req = Some a ->
  act_user a = doc_id (req_user req) ->
  perform (Endorse env req) w
  = (w, inr (res_status 400
               (JMessage (match status a with
                          | approved => "Cannot endorse your own activity"
                          | pending | rejected => "Can only endorse approved activities"
                          end)))).
Proof.
  intros Ha Ho. destruct (status a) eqn:Hs.
  - apply (endorse_not_approved env req w a Ha). congruence.
  - by apply (endorse_own env req w a Ha).
  - apply (endorse_not_approved env req w a Ha). congruence.
Qed.

Lemma self_endorsement_fails_witness :
  let req := request_by 1%N alice None None in
  perform (Endorse env_set req) approved_world
  = (approved_world, inr (res_status 400 (JMessage "Cannot endorse your own activity"))).
Proof.
  intros req.
  apply (self_endorsement_fails env_set req approved_world
           (approved_by 3%N 1700000000000 250 cleanup));
    [vm_compute; reflexivity | reflexivity].
Defined.

(** C6, as stated, fails: alice endorsing her own activity 10 while it is
    pending is refused with "Can only endorse approved activities", not with
    "Cannot endorse your own activity". *)
Lemma self_endorsement_of_pending_activity :
  let req := request_by 1%N alice None None in
  activities sample_world !! params_id req = Some cleanup /\
  status cleanup = pending /\
  act_user cleanup = doc_id (req_user req) /\
  perform (Endorse env_set req) sample_world
  = (sample_world,
     inr (res_status 400 (JMessage "Can only endorse approved activities"))) /\
  perform (Endorse env_set req) sample_world
  <> (sample_world,
      inr (res_status 400 (JMessage "Cannot endorse your own activity"))).
Proof.
  intros req.
  assert (H : perform (Endorse env_set req) sample_world
              = (sample_world,
                 inr (res_status 400 (JMessage "Can only endorse approved activities"))))
    by (apply (endorse_not_approved env_set req sample_world cleanup);
        [reflexivity | discriminate]).
  do 3 (split; [reflexivity|]). split; [exact H|].
  rewrite H. intros [=].
Qed.

(** ** Rejection *)

(** C7, as the code has it: rejecting a pending activity with a reason of at
    most 500 characters, or with none, stores status rejected, the supplied
    reason (the default "Does not meet criteria" when the reason is absent or
    empty), the verifier and the time of the decision, and leaves every
    account, so the owner's civicPoints and civicRank, as it was. *)
Theorem reject_pending_activity (req : Request) (w : World) (a : CivicActivity) :
  activities w !! params_id req = Some a -> status a = pending ->
  (forall r, body_reason req = Some r -> (String.length r <= 500)%nat) ->
  exists a',
    activities (perform (Reject req) w).1 !! params_id req = Some a' /\
    status a' = rejected /\
    (forall r, body_reason req = Some r -> r <> EmptyString ->
               rejectionReason a' = Some r) /\
    (body_reason req = None \/ body_reason req = Some EmptyString ->
     rejectionReason a' = Some "Does not meet criteria") /\
    verifiedBy a' = Some (doc_id (req_user req)) /\
    verifiedAt a' = Some (now req) /\
    users (perform (Reject req) w).1 = users w.
Proof.
  intros Ha Hs Hr.
  assert (Hl : maxlength 500
                 (str_or_default (body_reason req) "Does not meet criteria") = true)
    by (apply str_or_default_fits; [exact Hr | cbn; lia]).
  destruct (reject_pending_store req w a Ha Hs Hl) as [Ea Eu].
  eexists. rewrite Ea, Eu, lookup_insert_eq. split; [reflexivity|]. cbn.
  repeat split.
  - intros r -> Hne. by destruct r.
  - by intros [-> | ->].
Qed.

Lemma reject_pending_activity_witness :
  let req := request_by 3%N carol (Some "No proof attached") None in
  exists a',
    activities (perform (Reject req) sample_world).1 !! 10%N = Some a' /\
    status a' = rejected /\
    rejectionReason a' = Some "No proof attached" /\
    users (perform (Reject req) sample_world).1 = users sample_world.
Proof.
  intros req.
  destruct (reject_pending_activity req sample_world cleanup eq_refl eq_refl)
    as (a' & Ha' & Hs' & Hr' & _ & _ & _ & Hu').
  { intros r [= <-]. vm_compute. lia. }
  exists a'. split; [exact Ha'|]. split; [exact Hs'|]. split; [|exact Hu'].
  apply Hr'; [reflexivity | discriminate].
Defined.

(** C7, as stated, fails: rejecting the pending activity 10 with a reason of
    501 characters answers 500 (the [maxlength] validator of the schema refuses
    the reason) and the activity stays pending, with no reason stored. *)
Lemma reject_with_long_reason :
  let req := request_by 3%N carol (Some (letters 501)) None in
  String.length (letters 501) = 501%nat /\
  activities sample_world !! params_id req = Some cleanup /\
  status cleanup = pending /\
  perform (Reject req) sample_world
  = (sample_world, inr (res_status 500 (JError (ValidationError "rejectionReason")))) /\
  status <$> activities (perform (Reject req) sample_world).1 !! 10%N = Some pending /\
  rejectionReason <$> activities (perform (Reject req) sample_world).1 !! 10%N
  = Some None.
Proof. vm_compute. repeat split. Qed.

(** ** Civic stats *)

Lemma stage_match_filter f docs :
  stage_match f docs
  = filter (fun a => act_user a = f_user f /\ status a = f_status f) docs.
Proof.
  unfold stage_match. induction docs as [|a docs IH]; [reflexivity|].
  cbn [List.filter]. rewrite filter_cons, IH. unfold matches.
  destruct (decide (act_user a = f_user f /\ status a = f_status f)) as [[H1 H2]|Hn].
  - by rewrite !bool_decide_eq_true_2.
  - destruct (decide (act_user a = f_user f)) as [H1|H1].
    + rewrite (bool_decide_eq_true_2 _ H1), bool_decide_eq_false_2; [done|].
      intros H2. by apply Hn.
    + by rewrite (bool_decide_eq_false_2 _ H1).
Qed.

Lemma fold_left_add_sum (l : list nat) (n : nat) :
  fold_left Nat.add l n = (n + sum_list l)%nat.
Proof.
  revert n. induction l as [|x l IH]; intros n; cbn; [lia|]. rewrite IH. lia.
Qed.

Lemma first_total_is_sum (counts : list nat) :
  first_total_or_0 (stage_group_sum counts) = sum_list counts.
Proof.
  destruct counts as [|x l]; [reflexivity|].
  cbn [stage_group_sum first_total_or_0]. rewrite fold_left_add_sum.
  destruct (Nat.eqb_spec (0 + sum_list (x :: l)) 0); lia.
Qed.

(** C8: for a user who has an account, [getUserCivicStats] answers with
    totalActivities the number of the user's approved activities, with
    pendingActivities the number of the pending ones, and with
    totalEndorsements the sum of the lengths of the endorsement lists of the
    approved ones only; the store after the call is the store before it. *)
Theorem civic_stats_counts (req : Request) (w : World) (u : User) :
  users w !! params_userId req = Some u ->
  perform (Stats req) w
  = (w, inr (res_json
       (JStats (civicPoints u) (civicRank u)
          (length (activities_with_status (params_userId req) approved w))
          (length (activities_with_status (params_userId req) pending w))
          (endorsements_received
             (activities_with_status (params_userId req) approved w))))).
Proof.
  intros Hu. rewrite (stats_found req w u Hu). cbn zeta.
  rewrite first_total_is_sum, !stage_match_filter. reflexivity.
Qed.

Lemma civic_stats_counts_witness :
  perform (Stats (request_by 2%N bob None None)) stats_world
  = (stats_world, inr (res_json (JStats 450 Citizen 3 1 7))).
Proof.
  rewrite (civic_stats_counts (request_by 2%N bob None None) stats_world alice eq_refl).
  vm_compute. reflexivity.
Defined.

(** ** Interleaved handlers *)

Lemma interleave_app {A} (s1 s2 : list nat) (c : list (Prog A) * World) :
  interleave (s1 ++ s2) c = interleave s2 (interleave s1 c).
Proof. apply fold_left_app. Qed.

(** Scheduled alone until it is done, a handler does what [run] says. *)
Lemma interleave_alone {A} (p : Prog A) :
  forall (i : nat) (pool : list (Prog A)) (w : World),
    pool !! i = Some p ->
    interleave (replicate (calls p w) i) (pool, w)
    = (<[i := finished (run p w).2]> pool, (run p w).1).
Proof.
  induction p as [a|e|X op k IH]; intros i pool w Hp.
  - cbn. by rewrite list_insert_id.
  - cbn. by rewrite list_insert_id.
  - cbn [calls run]. destruct (exec op w) as [w' r] eqn:Hop.
    cbn [replicate interleave fold_left]. unfold step at 2. cbn [fst snd].
    rewrite Hp, Hop.
    change (fold_left (fun c j => step j c) ?s ?c) with (interleave s c).
    rewrite (IH r i (<[i := k r]> pool) w').
    + by rewrite list_insert_insert_eq.
    + apply list_lookup_insert_eq. by eapply lookup_lt_Some.
Qed.

Lemma interleave_one_after_the_other {A} (p0 p1 : Prog A) (w : World) :
  interleave (one_after_the_other p0 p1 w) ([p0; p1], w)
  = ([finished (run p0 w).2; finished (run p1 (run p0 w).1).2],
     (run p1 (run p0 w).1).1).
Proof.
  unfold one_after_the_other. rewrite interleave_app.
  rewrite (interleave_alone p0 0 [p0; p1] w eq_refl). cbn [insert list_insert].
  by rewrite (interleave_alone p1 1 [finished (run p0 w).2; p1] _ eq_refl).
Qed.

(** A decision that passes validation leaves the activity decided. *)
Lemma decision_is_stored (o : Operation) (w : World) (id : ObjectId)
  (a : CivicActivity) :
  decision_target o = Some id -> reason_fits o ->
  activities w !! id = Some a -> status a = pending ->
  exists a', activities (perform o w).1 !! id = Some a' /\ status a' <> pending.
Proof.
  intros Ht Hf Ha Hs. destruct o as [env req|req|env req|req]; try discriminate;
    injection Ht as <-.
  - destruct (users w !! act_user a) as [u|] eqn:Hu.
    + destruct (approve_pending_store env req w a u Ha Hs Hu) as [-> _].
      eexists. by rewrite lookup_insert_eq.
    + rewrite (approve_owner_missing env req w a Ha Hs Hu). cbn.
      eexists. by rewrite lookup_insert_eq.
  - destruct (reject_pending_store req w a Ha Hs Hf) as [-> _].
    eexists. by rewrite lookup_insert_eq.
Qed.

Lemma decision_on_decided (o : Operation) (w : World) (id : ObjectId)
  (a : CivicActivity) :
  decision_target o = Some id ->
  activities w !! id = Some a -> status a <> pending ->
  perform o w = (w, inr (res_status 400 (JMessage "Activity already processed"))).
Proof.
  intros Ht Ha Hs. destruct o as [env req|req|env req|req]; try discriminate;
    injection Ht as <-.
  - by eapply approve_processed.
  - by eapply reject_processed.
Qed.

(** C9, as the code has it: a decision reads the activity, checks the status
    it read and saves the assigned paths, with no condition on the stored
    status.  When two decisions on the same pending activity run one after the
    other, the first (a rejection with a reason the schema accepts, or an
    approval) leaves the activity decided, and the second answers 400
    "Activity already processed" and leaves the store as the first left it. *)
Theorem decisions_one_after_the_other
  (o1 o2 : Operation) (w : World) (id : ObjectId) (a : CivicActivity) :
  decision_target o1 = Some id -> decision_target o2 = Some id ->
  reason_fits o1 ->
  activities w !! id = Some a -> status a = pending ->
  let first := perform o1 w in
  (exists a', activities first.1 !! id = Some a' /\ status a' <> pending) /\
  interleave (one_after_the_other (handler o1) (handler o2) w)
             ([handler o1; handler o2], w)
  = ([finished first.2;
      Ret (res_status 400 (JMessage "Activity already processed"))],
     first.1).
Proof.
  intros H1 H2 Hf Ha Hs first.
  destruct (decision_is_stored o1 w id a H1 Hf Ha Hs) as (a' & Ha' & Hs').
  split; [by exists a'|].
  rewrite interleave_one_after_the_other.
  change (run (handler o1) w) with first.
  change (run (handler o2) first.1) with (perform o2 first.1).
  by rewrite (decision_on_decided o2 first.1 id a' H2 Ha' Hs').
Qed.

Lemma decisions_one_after_the_other_witness :
  let o1 := Approve env_set (request_by 3%N carol None None) in
  let o2 := Reject (request_by 2%N bob (Some "Too late") None) in
  interleave (one_after_the_other (handler o1) (handler o2) sample_world)
             ([handler o1; handler o2], sample_world)
  = ([finished (perform o1 sample_world).2;
      Ret (res_status 400 (JMessage "Activity already processed"))],
     approved_world).
Proof.
  intros o1 o2.
  exact (proj2 (decisions_one_after_the_other o1 o2 sample_world 10%N cleanup
                  eq_refl eq_refl I eq_refl eq_refl)).
Defined.

(** C9, as stated, fails.  Two approvals of the pending activity 10 that both
    read it before either saves both answer 200, and the owner is awarded
    twice; and a stats request that runs between the save of the activity and
    the save of the owner's account reports one approved activity together
    with the owner's 450 points of before the award. *)
Lemma interleaved_decisions_both_succeed :
  let approve_by_carol := approveActivity env_set (request_by 3%N carol None None) in
  let approve_by_bob := approveActivity env_set (request_by 2%N bob None None) in
  let stats_of_alice := getUserCivicStats (request_by 2%N bob None None) in
  let c := interleave [0; 1; 0; 1; 0; 0; 0; 0; 1; 1; 1; 1]%nat
             ([approve_by_carol; approve_by_bob], sample_world) in
  let c' := interleave [0; 0; 1; 1; 1; 1]%nat
              ([approve_by_carol; stats_of_alice], sample_world) in
  (exists r1 r2, c.1 = [Ret r1; Ret r2] /\ statusCode r1 = 200 /\ statusCode r2 = 200) /\
  civicPoints <$> users sample_world !! 1%N = Some 450 /\
  civicPoints <$> users c.2 !! 1%N = Some (450 + 250 + 250) /\
  status <$> activities c'.2 !! 10%N = Some approved /\
  c'.1 !! 1%nat = Some (Ret (res_json (JStats 450 Citizen 1 0 0))).
Proof.
  vm_compute. repeat split. eexists _, _. repeat split.
Qed.

(** * More of the server: properties *)

(** ** More on the civic operations *)

(** X1: a civic request answered with 400 or 404 leaves the activities, the
    accounts, the notifications and the socket events exactly as they were. *)
Theorem refused_request_changes_nothing (o : Operation) (w : World) (resp : Response) :
  (perform o w).2 = inr resp ->
  statusCode resp = 400 \/ statusCode resp = 404 ->
  (perform o w).1 = w.
Proof.
  intros Hr Hc. outcome o w E H. rewrite E in *. cbn in *.
  injection Hr as <-. inversion H; subst; cbn in Hc; try reflexivity; lia.
Qed.

Lemma refused_request_changes_nothing_witness :
  (perform (Endorse env_set (request_by 2%N bob None None)) sample_world).1
  = sample_world.
Proof.
  apply (refused_request_changes_nothing _ _
           (res_status 400 (JMessage "Can only endorse approved activities"))).
  - vm_compute. reflexivity.
  - left. reflexivity.
Defined.

Lemma perform_no_new_activity (o : Operation) (w : World) (id : ObjectId) :
  activities w !! id = None -> activities (perform o w).1 !! id = None.
Proof.
  intros Hn.
  destruct (perform_activities o w) as [->|(j & b & b' & Hb & _ & ->)]; [done|].
  rewrite lookup_insert_ne; [done|]. intros ->. congruence.
Qed.

(** X2: once an activity is approved or rejected, no later request changes its
    status, its points, who verified it and when, its rejection reason, its
    owner or its title; a rejected activity does not change at all. *)
Theorem decision_is_terminal (o : Operation) (w : World) (id : ObjectId)
  (a : CivicActivity) :
  activities w !! id = Some a -> status a <> pending ->
  exists a', activities (perform o w).1 !! id = Some a' /\
    status a' = status a /\ pointsAwarded a' = pointsAwarded a /\
    verifiedBy a' = verifiedBy a /\ verifiedAt a' = verifiedAt a /\
    rejectionReason a' = rejectionReason a /\
    act_user a' = act_user a /\ title a' = title a /\
    (status a = rejected -> a' = a).
Proof.
  intros Ha Hs.
  destruct (perform_activity o w id a Ha)
    as (a' & Ha' & [->|[[? _]|[[? _]|(Hap & e & -> & _)]]]); try done.
  - exists a. by repeat split.
  - eexists. split; [exact Ha'|]. repeat split. congruence.
Qed.

Lemma decision_is_terminal_witness :
  exists a',
    activities (perform (Reject (request_by 3%N carol None None)) approved_world).1
      !! 10%N = Some a' /\
    status a' = approved /\ pointsAwarded a' = 250.
Proof.
  destruct (decision_is_terminal (Reject (request_by 3%N carol None None))
              approved_world 10%N
              (approved_by 3%N 1700000000000 250 cleanup))
    as (a' & Ha' & Hs & Hp & _).
  - vm_compute. reflexivity.
  - discriminate.
  - exists a'. split; [exact Ha'|]. split; [exact Hs | exact Hp].
Defined.



Lemma endorsements_sound_perform (o : Operation) (w : World) :
  endorsements_sound w -> endorsements_sound (perform o w).1.
Proof.
  intros Hw id a' Ha'.
  destruct (activities w !! id) as [a|] eqn:Ha;
    [|by rewrite (perform_no_new_activity o w id Ha) in Ha'].
  destruct (Hw id a Ha) as (Hnd & Hown & Hst).
  destruct (perform_activity o w id a Ha)
    as (b & Hb & [->|[(Hp & v & t & p & ->)|[(Hp & v & t & r & ->)|(Hap & e & -> & He1 & He2)]]]);
    rewrite Hb in Ha'; injection Ha' as <-.
  - done.
  - by repeat split.
  - repeat split; [done..|]. cbn. intros Hne. specialize (Hst Hne). congruence.
  - unfold endorsers in *. cbn. rewrite fmap_app. cbn. repeat split.
    + apply NoDup_app. split; [done|]. split; [|apply NoDup_singleton].
      intros x Hx ->%list_elem_of_singleton. done.
    + rewrite elem_of_app, list_elem_of_singleton. intros [?|?]; [done|]. congruence.
    + done.
Qed.

(** X4: civic requests that run one after the other, each to completion
    before the next starts, keep the invariant that no user endorsed an
    activity twice, no owner endorsed an own activity, and only approved
    activities carry endorsements. *)
Theorem endorsements_stay_sound (os : list Operation) (w : World) :
  endorsements_sound w -> endorsements_sound (perform_all os w).
Proof.
  revert w. induction os as [|o os IH]; intros w Hw; [exact Hw|].
  apply (IH (perform o w).1). by apply endorsements_sound_perform.
Qed.

Lemma opening_world_sound : endorsements_sound opening_world.
Proof.
  intros id a Ha. apply elem_of_map_to_list in Ha.
  let l := eval vm_compute in (map_to_list (activities opening_world)) in
  change (map_to_list (activities opening_world)) with l in Ha.
  apply list_elem_of_singleton in Ha. injection Ha as -> ->.
  split; [constructor|]. split; [apply not_elem_of_nil | done].
Qed.

Lemma endorsements_stay_sound_witness :
  endorsements_sound opening_world /\
  endorsements_sound
    (perform_all [Approve env_set (request_by 3%N carol None None);
                  Endorse env_set (request_by 2%N bob None None);
                  Endorse env_set (request_by 2%N bob None None)]
       opening_world).
Proof.
  split; [exact opening_world_sound|].
  exact (endorsements_stay_sound _ _ opening_world_sound).
Defined.

Lemma sumZ_app l1 l2 : sumZ (l1 ++ l2) = sumZ l1 + sumZ l2.
Proof. unfold sumZ. induction l1 as [|x l IH]; cbn; [done|]. rewrite IH. lia. Qed.

Lemma sumZ_perm l1 l2 : l1 ≡ₚ l2 -> sumZ l1 = sumZ l2.
Proof. unfold sumZ. induction 1; cbn; lia. Qed.

Lemma earnings_replace (owner k : ObjectId) (a a' : CivicActivity) (w w' : World) :
  activities w !! k = Some a ->
  activities w' = <[k := a']> (activities w) ->
  earnings owner w' = earnings owner w - share owner a + share owner a'.
Proof.
  intros Ha E. unfold earnings, documents. rewrite E.
  fold (share owner).
  rewrite <-(insert_delete_eq (activities w)).
  rewrite (sumZ_perm _ (share owner <$> (snd <$> ((k, a') :: map_to_list (delete k (activities w)))))).
  2:{ do 2 apply fmap_Permutation. apply map_to_list_insert, lookup_delete_eq. }
  rewrite (sumZ_perm (share owner <$> (snd <$> map_to_list (activities w)))
             (share owner <$> (snd <$> ((k, a) :: map_to_list (delete k (activities w)))))).
  2:{ do 2 apply fmap_Permutation. symmetry. by apply map_to_list_delete. }
  rewrite !fmap_cons. cbn [snd]. unfold sumZ. cbn [foldr]. ring.
Qed.

Lemma earnings_same (owner : ObjectId) (w w' : World) :
  activities w' = activities w -> earnings owner w' = earnings owner w.
Proof. intros E. unfold earnings, documents. by rewrite E. Qed.

Lemma earned_approved_by v t pts a :
  status a = pending -> earned (approved_by v t pts a) = earned a + pts.
Proof.
  intros Hs. unfold earned, approved_by. cbn [status pointsAwarded endorsements].
  rewrite Hs, bool_decide_eq_true_2, bool_decide_eq_false_2 by done. lia.
Qed.

Lemma earned_rejected_by v t r a :
  status a = pending -> earned (rejected_by v t r a) = earned a.
Proof.
  intros Hs. unfold earned, rejected_by. cbn [status pointsAwarded endorsements].
  by rewrite Hs, !bool_decide_eq_false_2 by done.
Qed.

Lemma earned_push e a :
  earned (activity_write (push_endorsement e) a) = earned a + pointsGiven e.
Proof.
  unfold earned, activity_write. cbn [status pointsAwarded endorsements].
  rewrite fmap_app, sumZ_app. unfold sumZ at 2. cbn [fmap list_fmap foldr]. lia.
Qed.

Lemma share_approved_by owner v t pts a :
  status a = pending ->
  share owner (approved_by v t pts a)
  = share owner a + (if bool_decide (act_user a = owner) then pts else 0).
Proof.
  intros Hs. unfold share. cbn [act_user approved_by].
  case_bool_decide; [|lia]. by apply earned_approved_by.
Qed.

Lemma share_rejected_by owner v t r a :
  status a = pending -> share owner (rejected_by v t r a) = share owner a.
Proof.
  intros Hs. unfold share. cbn [act_user rejected_by].
  case_bool_decide; [|lia]. by apply earned_rejected_by.
Qed.

Lemma share_push owner e a :
  share owner (activity_write (push_endorsement e) a)
  = share owner a + (if bool_decide (act_user a = owner) then pointsGiven e else 0).
Proof.
  unfold share. cbn [act_user activity_write].
  case_bool_decide; [|lia]. apply earned_push.
Qed.

(** What an operation adds to the points of an account is what it adds to
    the earnings of the activities of that account. *)
Lemma perform_earnings (o : Operation) (w : World) (id : ObjectId)
  (u u' : User) :
  users w !! id = Some u ->
  users (perform o w).1 !! id = Some u' ->
  civicPoints u' - civicPoints u
  = earnings id (perform o w).1 - earnings id w.
Proof.
  intros Hu Hu'. outcome o w E H. rewrite E in *. cbn [fst] in *.
  inversion H; subst; cbn in Hu';
    try (rewrite Hu in Hu'; injection Hu' as <-; lia);
    (erewrite (earnings_replace _ _ a); [|eassumption|reflexivity]);
    rewrite ?share_approved_by, ?share_rejected_by, ?share_push by done;
    try (rewrite Hu in Hu'; injection Hu' as <-);
    try (rewrite bool_decide_eq_false_2 by congruence; lia);
    try lia.
  all: destruct (decide (act_user a = id)) as [<-|Hne];
    [ rewrite lookup_insert_eq in Hu'; injection Hu' as <-;
      rewrite bool_decide_eq_true_2 by done; simplify_eq; cbn; lia
    | rewrite lookup_insert_ne in Hu' by done;
      rewrite bool_decide_eq_false_2 by done; simplify_eq; lia ].
Qed.

Lemma perform_no_new_account (o : Operation) (w : World) (id : ObjectId) :
  users w !! id = None -> users (perform o w).1 !! id = None.
Proof.
  intros Hn. destruct (perform_users o w) as [->|(j & v & pts & Hj & ->)]; [done|].
  rewrite lookup_insert_ne; [done|]. intros ->. congruence.
Qed.

Lemma ledger_balanced_perform (o : Operation) (w : World) :
  ledger_balanced w -> ledger_balanced (perform o w).1.
Proof.
  intros Hw id u' Hu'.
  destruct (users w !! id) as [u|] eqn:Hu;
    [|by rewrite (perform_no_new_account o w id Hu) in Hu'].
  pose proof (perform_earnings o w id u u' Hu Hu') as Hd.
  specialize (Hw id u Hu). lia.
Qed.

(** X5: civic requests that run one after the other, each to completion
    before the next starts (also one that fails half-way), keep the points of
    every account equal to what its activities have earned: the points
    awarded to the approved ones and the points given by every endorsement.
    The awards and the points of the accounts are safe integers at every
    request, so that the code adds them without rounding. *)
Theorem ledger_stays_balanced (os : list Operation) (w : World) :
  ledger_balanced w -> awards_are_exact os w ->
  ledger_balanced (perform_all os w).
Proof.
  revert w. induction os as [|o os IH]; intros w Hw Hx; [exact Hw|].
  destruct Hx as [_ Hx]. apply (IH (perform o w).1); [|exact Hx].
  by apply ledger_balanced_perform.
Qed.

Lemma opening_world_balanced : ledger_balanced opening_world.
Proof.
  intros id u Hu. apply elem_of_map_to_list in Hu.
  let l := eval vm_compute in (map_to_list (users opening_world)) in
  change (map_to_list (users opening_world)) with l in Hu.
  repeat (apply elem_of_cons in Hu as [[= -> ->]|Hu]; [vm_compute; reflexivity|]).
  by apply elem_of_nil in Hu.
Qed.

Lemma opening_world_safe (o : Operation) :
  isSafeInteger (awarded o) = true -> award_is_exact o opening_world.
Proof.
  intros Ha. split; [exact Ha|]. intros id u Hu.
  assert (H0 : civicPoints u = 0).
  { apply elem_of_map_to_list in Hu.
    let l := eval vm_compute in (map_to_list (users opening_world)) in
    change (map_to_list (users opening_world)) with l in Hu.
    repeat (apply elem_of_cons in Hu as [[= -> ->]|Hu]; [reflexivity|]).
    by apply elem_of_nil in Hu. }
  rewrite H0. split; [reflexivity | exact Ha].
Qed.

Lemma ledger_stays_balanced_witness :
  ledger_balanced opening_world /\
  ledger_balanced
    (perform_all [Approve env_set (request_by 3%N carol None None)] opening_world).
Proof.
  split; [exact opening_world_balanced|].
  apply (ledger_stays_balanced [Approve env_set (request_by 3%N carol None None)]
           opening_world opening_world_balanced).
  split; [|exact I]. apply opening_world_safe. reflexivity.
Defined.

Lemma string_length_app (s1 s2 : string) :
  String.length (s1 +:+ s2) = (String.length s1 + String.length s2)%nat.
Proof.
  induction s1 as [|c s IH]; [done|].
  change (S (String.length (s +:+ s2)) = S (String.length s + String.length s2)).
  by rewrite IH.
Qed.

Lemma text_rejected_length (t r : string) :
  String.length (text_rejected t r) = (49 + String.length t + String.length r)%nat.
Proof. unfold text_rejected. rewrite !string_length_app. cbn. lia. Qed.

(** X6: a rejection whose reason fits the 500 characters of [rejectionReason]
    but whose notification text (49 characters, the title and the reason) does
    not fit the 500 characters of [message] is answered with 500; the activity
    is stored as rejected all the same, and no notification is created and no
    event is sent. *)
Theorem rejection_stands_when_notice_fails (req : Request) (w : World)
  (a : CivicActivity) :
  activities w !! params_id req = Some a -> status a = pending ->
  let reason := str_or_default (body_reason req) "Does not meet criteria" in
  (String.length reason <= 500)%nat ->
  (451 < String.length (title a) + String.length reason)%nat ->
  (perform (Reject req) w).2
  = inr (res_status 500 (JError (ValidationError "message"))) /\
  activities (perform (Reject req) w).1 !! params_id req
  = Some (rejected_by (doc_id (req_user req)) (now req) reason a) /\
  notifications (perform (Reject req) w).1 = notifications w /\
  emitted (perform (Reject req) w).1 = emitted w.
Proof.
  intros Ha Hs reason Hr Ht.
  assert (Hl : maxlength 500 reason = true) by (by apply Nat.leb_le).
  rewrite (reject_pending req w a Ha Hs Hl). cbn zeta. cbn [ntf_message].
  fold reason.
  assert (Hn : maxlength 500 (text_rejected (title a) reason) = false).
  { apply Nat.leb_gt. rewrite text_rejected_length. lia. }
  rewrite Hn. cbn. by rewrite lookup_insert_eq.
Qed.

Lemma rejection_stands_when_notice_fails_witness :
  let req := request_by 3%N carol (Some (letters 480)) None in
  (perform (Reject req) sample_world).2
  = inr (res_status 500 (JError (ValidationError "message"))) /\
  notifications (perform (Reject req) sample_world).1 = [].
Proof.
  intros req.
  destruct (rejection_stands_when_notice_fails req sample_world cleanup)
    as (Hr & _ & Hn & _).
  - reflexivity.
  - reflexivity.
  - vm_compute. lia.
  - vm_compute. lia.
  - split; [exact Hr | exact Hn].
Defined.

(** X7: every civic request is answered, with status 200, 400, 404 or 500: no
    exception leaves a handler. *)
Theorem every_request_is_answered (o : Operation) (w : World) :
  exists resp, (perform o w).2 = inr resp /\
    (statusCode resp = 200 \/ statusCode resp = 400 \/
     statusCode resp = 404 \/ statusCode resp = 500).
Proof.
  outcome o w E H. exists resp. rewrite E. split; [reflexivity|].
  inversion H; subst; cbn; auto.
Qed.

(** X8: on an id that is no stored activity, approve, reject and endorse answer
    404 with the message [Activity not found] and change nothing. *)
Theorem missing_activity_is_not_found (env : Env) (req : Request) (w : World) :
  activities w !! params_id req = None ->
  let not_found := (w, inr (res_status 404 (JMessage "Activity not found"))) in
  perform (Approve env req) w = not_found /\
  perform (Reject req) w = not_found /\
  perform (Endorse env req) w = not_found.
Proof.
  intros Hn nf. subst nf. repeat split.
  - by apply approve_not_found.
  - by apply reject_not_found.
  - by apply endorse_not_found.
Qed.

Lemma missing_activity_is_not_found_witness :
  let req := {| params_id := 99%N; params_userId := 1%N; body_reason := None;
                body_message := None; req_user := hydrate 3%N carol; now := 0 |} in
  perform (Approve env_set req) sample_world
  = (sample_world, inr (res_status 404 (JMessage "Activity not found"))).
Proof.
  intros req.
  exact (proj1 (missing_activity_is_not_found env_set req sample_world eq_refl)).
Defined.

(** X9: endorsing a pending or a rejected activity is answered with 400 and
    the message [Can only endorse approved activities], whoever asks, and
    changes nothing. *)
Theorem only_approved_activities_are_endorsed
  (env : Env) (req : Request) (w : World) (a : CivicActivity) :
  activities w !! params_id req = Some a ->
  status a = pending \/ status a = rejected ->
  perform (Endorse env req) w
  = (w, inr (res_status 400 (JMessage "Can only endorse approved activities"))).
Proof.
  intros Ha Hs. apply (endorse_not_approved env req w a Ha).
  destruct Hs as [-> | ->]; discriminate.
Qed.

Lemma only_approved_activities_are_endorsed_witness :
  perform (Endorse env_set (request_by 2%N bob None None)) sample_world
  = (sample_world,
     inr (res_status 400 (JMessage "Can only endorse approved activities"))).
Proof.
  apply (only_approved_activities_are_endorsed env_set (request_by 2%N bob None None)
           sample_world cleanup eq_refl).
  left. reflexivity.
Defined.

(** X10: a civic request changes no activity but the one it names and no
    account but the one of the owner of that activity. *)
Theorem operation_touches_one_activity_and_its_owner (o : Operation) (w : World) :
  (forall id, subject o <> Some id ->
     activities (perform o w).1 !! id = activities w !! id) /\
  (forall uid,
     (forall k a, subject o = Some k -> activities w !! k = Some a ->
                  act_user a <> uid) ->
     users (perform o w).1 !! uid = users w !! uid).
Proof.
  outcome o w E H. rewrite E. cbn [fst].
  inversion H; subst; cbn; split; try done.
  all: try (intros id Hid; rewrite lookup_insert_ne; [done | congruence]).
  all: intros uid Hu; rewrite lookup_insert_ne; [done|]; by eapply Hu.
Qed.

(** X11: an approval, a rejection or an endorsement answered with 200 creates
    one notification and sends one event, both to the owner of the activity;
    a request answered otherwise, and a stats request, creates and sends none. *)
Theorem notification_accompanies_success (o : Operation) (w : World)
  (resp : Response) :
  (perform o w).2 = inr resp ->
  let w' := (perform o w).1 in
  (statusCode resp <> 200 \/ subject o = None ->
     notifications w' = notifications w /\ emitted w' = emitted w) /\
  (statusCode resp = 200 -> subject o <> None ->
     exists a n ev,
       activities w !! civicActivity n = Some a /\
       subject o = Some (civicActivity n) /\
       recipient n = act_user a /\
       notifications w' = (notifications w ++ [n])%list /\
       emitted w' = (emitted w ++ [(act_user a, ev)])%list).
Proof.
  intros Hr w'. subst w'. outcome o w E H. rewrite E in *. cbn [fst snd] in *.
  injection Hr as <-.
  inversion H; subst; cbn; (split; [try done; by intros [?|[=]] | try done]).
  all: intros _ _; eexists a, _, _; cbn; by repeat split.
Qed.

Lemma notification_accompanies_success_witness :
  notifications
    (perform (Endorse env_set (request_by 2%N bob None None)) sample_world).1 = [].
Proof.
  destruct (notification_accompanies_success
              (Endorse env_set (request_by 2%N bob None None)) sample_world
              (res_status 400 (JMessage "Can only endorse approved activities")))
    as [Hn _].
  - vm_compute. reflexivity.
  - destruct Hn as [Hn _]; [left; discriminate | exact Hn].
Defined.

(** ** The message controller *)

Lemma falsy_str_or_default (s : option string) :
  falsy s = true -> str_or_default s EmptyString = EmptyString.
Proof. by destruct s as [[|??]|]. Qed.

(** X12: a message whose content is absent or empty is never stored and no
    event is sent, with or without a file: the answer is 400, 404 or 500, and
    400 when there is no file. *)
Theorem empty_message_is_never_stored (req : ChatRequest) (c : Chat) :
  falsy (body_content req) = true ->
  messages (sendMessage req c).1 = messages c /\
  delivered (sendMessage req c).1 = delivered c /\
  (chat_status (sendMessage req c).2 = 400 \/
   chat_status (sendMessage req c).2 = 404 \/
   chat_status (sendMessage req c).2 = 500) /\
  (chat_file req = None ->
   sendMessage req c
   = (c, chat_res 400 (CMessage "Message content or media is required"))).
Proof.
  intros Hf. unfold sendMessage. rewrite Hf, (falsy_str_or_default _ Hf). cbn.
  destruct (chat_file req) as [file|]; cbn; [|repeat split; auto].
  destruct (body_receiverId req) as [rid|]; cbn; [|repeat split; auto; done].
  destruct (members c !! rid) as [u|]; cbn; [|repeat split; auto; done].
  destruct (hosted file) as [[url pid]|]; cbn; repeat split; auto; done.
Qed.

Lemma empty_message_is_never_stored_witness :
  messages (sendMessage (chat_request 1%N 2%N (Some EmptyString) (Some picture))
              sample_chat).1
  = messages sample_chat.
Proof.
  apply (empty_message_is_never_stored
           (chat_request 1%N 2%N (Some EmptyString) (Some picture)) sample_chat).
  reflexivity.
Defined.

(** X13: a message with a content of 1 to 2000 characters to a known receiver,
    whose file (if any) the media host accepts, is answered with 201 and stored
    under a new id, as sent by the user of the request, unread; no other
    message changes, and one event goes to the room of the receiver. *)
Theorem sent_message_is_stored (req : ChatRequest) (c : Chat)
  (text : string) (rid : ObjectId) (receiver : User) :
  body_content req = Some text -> text <> EmptyString ->
  (String.length text <= 2000)%nat ->
  body_receiverId req = Some rid -> members c !! rid = Some receiver ->
  (forall file, chat_file req = Some file -> is_Some (hosted file)) ->
  exists id m,
    (sendMessage req c).2 = chat_res 201 (CSent id m) /\
    messages c !! id = None /\
    messages (sendMessage req c).1 = <[id := m]> (messages c) /\
    msg_sender m = chat_user req /\ msg_receiver m = rid /\ content m = text /\
    isRead m = false /\ createdAt m = chat_now req /\
    delivered (sendMessage req c).1 = (delivered c ++ [(rid, id)])%list.
Proof.
  intros Hc Hne Hlen Hr Hm Hfile.
  assert (Hs : str_or_default (Some text) EmptyString = text) by (by destruct text).
  assert (Hv : validate_content text = None).
  { unfold validate_content. destruct text; [done|].
    unfold maxlength. by rewrite (proj2 (Nat.leb_le _ _) Hlen). }
  assert (Hfalsy : falsy (Some text) = false) by (by destruct text).
  assert (Hfresh : forall c1 : Chat, messages c1 = messages c ->
                     messages c !! new_id c1 = None).
  { intros c1 E. apply not_elem_of_dom. unfold new_id. rewrite E. apply is_fresh. }
  unfold sendMessage. rewrite Hc, Hr, Hfalsy, Hs, Hv. cbn. rewrite Hm. cbn.
  destruct (chat_file req) as [file|] eqn:Hf; cbn.
  - destruct (Hfile file eq_refl) as [[url pid] Hh]. rewrite Hh. cbn.
    eexists _, _. split; [reflexivity|].
    split; [by apply Hfresh|]. by repeat split.
  - eexists _, _. split; [reflexivity|].
    split; [by apply Hfresh|]. by repeat split.
Qed.

Lemma sent_message_is_stored_witness :
  exists id m,
    (sendMessage (chat_request 1%N 2%N (Some "On my way") None) sample_chat).2
    = chat_res 201 (CSent id m) /\
    messages sample_chat !! id = None /\ content m = "On my way".
Proof.
  destruct (sent_message_is_stored (chat_request 1%N 2%N (Some "On my way") None)
              sample_chat "On my way" 2%N bob)
    as (id & m & Hr & Hnew & _ & _ & _ & Hc & _).
  - reflexivity.
  - discriminate.
  - vm_compute. lia.
  - reflexivity.
  - reflexivity.
  - intros file Hf. discriminate Hf.
  - exists id, m. split; [exact Hr|]. split; [exact Hnew | exact Hc].
Defined.

(** X14: a user who is not the sender of a message gets 403 and nothing
    changes; the sender gets 200, the message is removed and no other, and the
    hosted file of the message, if it has one, is gone as well. *)
Theorem only_the_sender_deletes (req : ChatRequest) (c : Chat) (m : Message) :
  messages c !! chat_params_id req = Some m ->
  (msg_sender m <> chat_user req ->
   deleteMessage req c
   = (c, chat_res 403 (CMessage "Not authorized to delete this message"))) /\
  (msg_sender m = chat_user req -> destroy_ok req = true ->
   (deleteMessage req c).2 = chat_res 200 (CMessage "Message deleted successfully") /\
   messages (deleteMessage req c).1 = delete (chat_params_id req) (messages c) /\
   (forall p, p ∈ assets (deleteMessage req c).1 -> p ∈ assets c) /\
   (forall md, media m = Some md -> media_publicId md <> EmptyString ->
      media_publicId md ∉ assets (deleteMessage req c).1)).
Proof.
  intros Hm. unfold deleteMessage. rewrite Hm. split.
  - intros Hne. by rewrite bool_decide_eq_false_2.
  - intros He Hok. rewrite bool_decide_eq_true_2 by done. cbn. rewrite Hok.
    destruct (media m) as [md|]; cbn; [|by repeat split].
    destruct (String.eqb_spec (media_publicId md) EmptyString) as [Hp|Hp]; cbn.
    + repeat split; [done|]. by intros ? [= <-] ?.
    + repeat split.
      * intros p Hin. apply list_elem_of_In, filter_In in Hin as [Hin _].
        by apply list_elem_of_In.
      * intros ? [= <-] _ Hin. apply list_elem_of_In, filter_In in Hin as [_ Hin].
        by rewrite String.eqb_refl in Hin.
Qed.

Lemma only_the_sender_deletes_witness :
  deleteMessage (chat_request 1%N 2%N None None) sample_chat
  = (sample_chat, chat_res 403 (CMessage "Not authorized to delete this message")).
Proof.
  destruct (only_the_sender_deletes (chat_request 1%N 2%N None None) sample_chat wave)
    as [Hno _].
  - reflexivity.
  - apply Hno. discriminate.
Defined.

#[global] Instance older_first_total : Total older_first.
Proof. intros x y. unfold older_first. lia. Qed.
#[global] Instance older_first_trans : Transitive older_first.
Proof. intros x y z. unfold older_first. lia. Qed.
#[global] Instance newer_first_total : Total newer_first.
Proof. intros x y. unfold newer_first. lia. Qed.
#[global] Instance newer_first_trans : Transitive newer_first.
Proof. intros x y z. unfold newer_first. lia. Qed.

Lemma elem_of_find_sorted (R : relation (ObjectId * Message))
  `{forall x y, Decision (R x y)} q c id m :
  (id, m) ∈ find_sorted R q c <-> messages c !! id = Some m /\ q m = true.
Proof.
  unfold find_sorted. rewrite merge_sort_Permutation.
  rewrite list_elem_of_In, filter_In, <-list_elem_of_In, elem_of_map_to_list. done.
Qed.

Lemma NoDup_find_sorted (R : relation (ObjectId * Message))
  `{forall x y, Decision (R x y)} q c : NoDup (find_sorted R q c).
Proof.
  unfold find_sorted. rewrite merge_sort_Permutation.
  apply NoDup_ListNoDup, List.NoDup_filter, NoDup_ListNoDup, NoDup_map_to_list.
Qed.

(** X15: the thread [getConversation] answers with holds exactly the stored
    messages between the two users, each once, oldest first. *)
Theorem conversation_is_the_sorted_thread (req : ChatRequest) (c : Chat) :
  exists thread,
    (getConversation req c).2 = chat_res 200 (CThread thread) /\
    StronglySorted older_first thread /\
    NoDup thread /\
    (forall id m, (id, m) ∈ thread <->
       messages c !! id = Some m /\
       ((msg_sender m = chat_user req /\ msg_receiver m = chat_params_userId req) \/
        (msg_sender m = chat_params_userId req /\ msg_receiver m = chat_user req))).
Proof.
  eexists. split; [reflexivity|]. split; [|split].
  - apply StronglySorted_merge_sort; apply _.
  - apply NoDup_find_sorted.
  - intros id m. rewrite elem_of_find_sorted. unfold exchanged_between.
    rewrite orb_true_iff, !andb_true_iff, !bool_decide_eq_true. done.
Qed.

Lemma length_filter_perm {A} (f : A -> bool) (l1 l2 : list A) :
  l1 ≡ₚ l2 -> length (List.filter f l1) = length (List.filter f l2).
Proof.
  induction 1 as [|x l l' _ IH|x y l|l l' l'' _ IH1 _ IH2]; cbn.
  - done.
  - destruct (f x); cbn; by rewrite IH.
  - destruct (f x), (f y); done.
  - by rewrite IH1.
Qed.

Lemma count_unread_updateMany (from to p me : ObjectId) (now : Z) (c : Chat) :
  count_unread from to (updateMany_read p me now c)
  = if bool_decide (from = p /\ to = me) then 0%nat else count_unread from to c.
Proof.
  unfold count_unread, updateMany_read. cbn [messages with_messages].
  rewrite map_to_list_fmap.
  induction (map_to_list (messages c)) as [|[k m] l IH].
  { cbn. by case_bool_decide. }
  rewrite fmap_cons. cbn [List.filter prod_map fst snd].
  assert (Hm : unread_from from to (mark_read p me now m)
               = if bool_decide (from = p /\ to = me) then false
                 else unread_from from to m).
  { unfold mark_read. destruct (unread_from p me m) eqn:Hu.
    - unfold unread_from in *. cbn.
      apply andb_true_iff in Hu as [Hu Hr]. apply andb_true_iff in Hu as [Hs Ht].
      apply bool_decide_eq_true in Hs, Ht. rewrite Hr, andb_false_r.
      case_bool_decide as Hd; [done|].
      rewrite Hs, Ht.
      destruct (decide (p = from)) as [<-|?]; destruct (decide (me = to)) as [<-|?];
        try (by destruct Hd);
        rewrite ?(bool_decide_eq_false_2 (p = from)), ?(bool_decide_eq_false_2 (me = to)),
          ?andb_false_r by done; done.
    - case_bool_decide as Hd; [|done]. destruct Hd as [-> ->]. exact Hu. }
  rewrite Hm. case_bool_decide.
  - cbn. exact IH.
  - destruct (unread_from from to m); cbn; by rewrite IH.
Qed.

Lemma map_has_elem {V} (k : ObjectId) (map : list (ObjectId * V)) :
  map_has k map = true <-> k ∈ map.*1.
Proof.
  unfold map_has. induction map as [|[j v] l IH]; cbn.
  - split; [done | by intros ?%elem_of_nil].
  - rewrite orb_true_iff, IH, bool_decide_eq_true, elem_of_cons. cbn.
    split; intros [?|?]; auto.
Qed.

Lemma group_by_partner_cons me c x rest map :
  is_Some (members c !! msg_sender x.2) ->
  is_Some (members c !! msg_receiver x.2) ->
  exists conv, entry_for me c x = Some conv /\
    group_by_partner me c (x :: rest) map
    = group_by_partner me c rest
        (if map_has (partner_of me x.2) map then map
         else (map ++ [(partner_of me x.2, conv)])%list).
Proof.
  intros [s Hs] [r Hr]. unfold entry_for, partner_of. cbn [group_by_partner].
  rewrite Hs. case_bool_decide; rewrite ?Hr, ?Hs; cbn; eexists; split; reflexivity.
Qed.

Lemma StronglySorted_sublist {A} (R : relation A) (l1 l2 : list A) :
  l1 `sublist_of` l2 -> StronglySorted R l2 -> StronglySorted R l1.
Proof.
  induction 1 as [|x l1 l2 Hsub IH|x l1 l2 Hsub IH]; intros Hs.
  - constructor.
  - apply StronglySorted_inv in Hs as [Hs Hall]. constructor; [by apply IH|].
    rewrite Forall_forall in Hall. apply Forall_forall. intros y Hy.
    apply Hall. by eapply elem_of_sublist.
  - apply StronglySorted_inv in Hs as [Hs _]. by apply IH.
Qed.

Lemma group_by_partner_spec me c msgs :
  (forall x, x ∈ msgs ->
     is_Some (members c !! msg_sender x.2) /\ is_Some (members c !! msg_receiver x.2)) ->
  forall map, exists extra,
    group_by_partner me c msgs map = inr (map ++ extra)%list /\
    Grouped me c msgs map extra.
Proof.
  induction msgs as [|x rest IH]; intros Hk map.
  - exists []. split; [by rewrite app_nil_r|].
    split; cbn; [constructor | by intros ? ?%elem_of_nil | by intros ? ?%elem_of_nil
                | by intros ? ? ?%elem_of_nil | constructor].
  - destruct (Hk x) as [Hs Hr]; [by left|].
    destruct (group_by_partner_cons me c x rest map Hs Hr) as (conv & Hconv & ->).
    assert (Hk' : forall y, y ∈ rest -> is_Some (members c !! msg_sender y.2) /\
                                       is_Some (members c !! msg_receiver y.2))
      by (intros y Hy; apply Hk; by right).
    assert (Hpc : partner conv = partner_of me x.2 /\ lastMessage conv = x).
    { unfold entry_for in Hconv.
      destruct (members c !! partner_of me x.2); cbn in Hconv; [|done].
      by injection Hconv as <-. }
    destruct Hpc as [Hpc Hlc].
    destruct (map_has (partner_of me x.2) map) eqn:Hhas.
    + destruct (IH Hk' map) as (extra & -> & G). exists extra. split; [done|].
      apply map_has_elem in Hhas. destruct G. split; try done.
      * intros y [->|Hy]%elem_of_cons; [by left | by auto].
      * intros k cv Hin. destruct (grouped_first0 k cv Hin) as (? & ? & l1 & l2 & -> & Hl1).
        repeat split; [done..|]. exists (x :: l1), l2. split; [done|].
        intros y [->|Hy]%elem_of_cons; [|by auto].
        intros <-. eapply (grouped_new0 (partner_of me x.2)); [|done].
        apply list_elem_of_fmap. by exists (partner_of me x.2, cv).
      * by apply sublist_cons.
    + destruct (IH Hk' (map ++ [(partner_of me x.2, conv)])%list) as (extra & -> & G).
      exists ((partner_of me x.2, conv) :: extra). split; [by rewrite <-app_assoc|].
      assert (Hnot : partner_of me x.2 ∉ map.*1).
      { intros Hin%map_has_elem. congruence. }
      destruct G. split.
      * cbn. constructor; [|done]. intros Hin. apply (grouped_new0 _ Hin).
        rewrite fmap_app, elem_of_app. right. cbn. by left.
      * intros k [->|Hin]%elem_of_cons; [done|]. intros Hm.
        apply (grouped_new0 _ Hin). rewrite fmap_app, elem_of_app. by left.
      * intros y [->|Hy]%elem_of_cons; [right; cbn; by left|].
        destruct (grouped_all0 y Hy) as [Hin|Hin]; [|right; cbn; by right].
        rewrite fmap_app, elem_of_app in Hin. destruct Hin as [?|Hin]; [by left|].
        cbn in Hin. apply list_elem_of_singleton in Hin. right. cbn. rewrite Hin. by left.
      * intros k cv [[= -> ->]|Hin]%elem_of_cons.
        -- rewrite Hlc. repeat split; [done..|]. exists [], rest. split; [done|].
           by intros ? ?%elem_of_nil.
        -- destruct (grouped_first0 k cv Hin) as (? & ? & l1 & l2 & -> & Hl1).
           repeat split; [done..|]. exists (x :: l1), l2. split; [done|].
           intros y [->|Hy]%elem_of_cons; [|by auto].
           intros <-. eapply (grouped_new0 (partner_of me x.2)).
           { apply list_elem_of_fmap. by exists (partner_of me x.2, cv). }
           rewrite fmap_app, elem_of_app. right. cbn. by left.
      * cbn. rewrite Hlc. by apply sublist_skip.
Qed.

Lemma involving_partner me m :
  involving me m = true ->
  (msg_sender m = me /\ partner_of me m = msg_receiver m) \/
  (msg_receiver m = me /\ partner_of me m = msg_sender m).
Proof.
  unfold involving, partner_of. rewrite orb_true_iff, !bool_decide_eq_true.
  case_bool_decide; intros [?|?]; auto; congruence.
Qed.

Lemma StronglySorted_fmap_inv {A B} (f : A -> B) (R : relation B) (l : list A) :
  StronglySorted R (f <$> l) -> StronglySorted (fun x y => R (f x) (f y)) l.
Proof.
  induction l as [|x l IH]; cbn; intros Hs; [constructor|].
  apply StronglySorted_inv in Hs as [Hs Hall]. constructor; [by apply IH|].
  by rewrite Forall_fmap in Hall.
Qed.

Lemma getConversations_grouped (req : ChatRequest) (c : Chat) :
  parties_known c ->
  let me := chat_user req in
  exists l,
    getConversations req c = (c, chat_res 200 (CConversations l)) /\
    NoDup (partner <$> l) /\
    (forall id m, messages c !! id = Some m -> involving me m = true ->
       partner_of me m ∈ partner <$> l) /\
    (forall conv, conv ∈ l ->
       messages c !! (lastMessage conv).1 = Some (lastMessage conv).2 /\
       involving me (lastMessage conv).2 = true /\
       partner_of me (lastMessage conv).2 = partner conv /\
       (forall id m, messages c !! id = Some m -> involving me m = true ->
          partner_of me m = partner conv ->
          createdAt m <= createdAt (lastMessage conv).2) /\
       unreadCount conv = count_unread (partner conv) me c /\
       (exists u, members c !! partner conv = Some u /\
                  partner_profile conv = profile_of u)) /\
    StronglySorted
      (fun x y => createdAt (lastMessage y).2 <= createdAt (lastMessage x).2) l.
Proof.
  intros Hk me. unfold getConversations. fold me.
  set (msgs := find_sorted newer_first (involving me) c).
  assert (Hin : forall id m, (id, m) ∈ msgs <->
                             messages c !! id = Some m /\ involving me m = true)
    by (intros; apply elem_of_find_sorted).
  assert (Hsorted : StronglySorted newer_first msgs)
    by (apply StronglySorted_merge_sort; apply _).
  destruct (group_by_partner_spec me c msgs) with (map := @nil (ObjectId * Conversation))
    as (extra & -> & G).
  { intros [id m] [Hm _]%Hin. by apply (Hk id m). }
  cbn [app]. destruct G as [Gnd Gnew Gall Gfirst Gsub].
  assert (Hpartners : partner <$> with_unread_counts me c extra = extra.*1).
  { unfold with_unread_counts. rewrite <-list_fmap_compose.
    apply Forall_fmap_ext, Forall_forall.
    intros [k cv] Hkc. cbn. by destruct (Gfirst k cv Hkc) as (_ & ? & _). }
  eexists. split; [reflexivity|]. split; [by rewrite Hpartners|]. split; [|split].
  - intros id m Hm Hi. rewrite Hpartners.
    destruct (Gall (id, m)) as [Hn|?]; [by apply Hin | | done].
    by apply elem_of_nil in Hn.
  - intros conv (kv & -> & Hkv)%list_elem_of_fmap. destruct kv as [k cv]. cbn.
    destruct (Gfirst k cv Hkv) as (Hentry & Hp & l1 & l2 & Hmsgs & Hl1).
    assert (Hlast : lastMessage cv ∈ msgs)
      by (rewrite Hmsgs, elem_of_app; right; by left).
    destruct (lastMessage cv) as [lid lm] eqn:Hlm.
    apply Hin in Hlast as [Hstored Hinv].
    unfold entry_for in Hentry. cbn in Hentry.
    destruct (members c !! partner_of me lm) as [u|] eqn:Hu; cbn in Hentry; [|done].
    injection Hentry as Hcv.
    assert (Hpk : partner_of me lm = k) by (rewrite <-Hp, <-Hcv; done).
    repeat split; try done.
    + by rewrite Hp.
    + intros id m Hm Hi Hpm. rewrite Hp in Hpm.
      assert (Hmem : (id, m) ∈ msgs) by (by apply Hin).
      rewrite Hmsgs in Hmem, Hsorted.
      apply elem_of_app in Hmem as [Hmem|Hmem].
      { by destruct (Hl1 _ Hmem). }
      apply StronglySorted_app_1_r in Hsorted.
      apply elem_of_cons in Hmem as [[= -> ->]|Hmem]; [cbn; lia|].
      apply StronglySorted_inv in Hsorted as [_ Hall].
      rewrite Forall_forall in Hall. apply (Hall _ Hmem).
    + by rewrite Hp.
    + exists u. rewrite Hp, <-Hpk, <-Hcv. done.
  - unfold with_unread_counts.
    apply (StronglySorted_fmap _
             (fun x y : ObjectId * Conversation =>
                newer_first (lastMessage x.2) (lastMessage y.2))).
    { by intros [? ?] [? ?]. }
    apply StronglySorted_fmap_inv. by eapply StronglySorted_sublist.
Qed.

(** X16: when the parties of every stored message have accounts,
    [getConversations] answers with one conversation per partner of the user:
    no partner twice, every partner present, the last message of each a stored
    message with that partner which none with that partner is newer than, and
    the conversations ordered by their last messages, newest first. *)
Theorem conversations_are_grouped_by_partner (req : ChatRequest) (c : Chat) :
  parties_known c ->
  let me := chat_user req in
  exists l,
    getConversations req c = (c, chat_res 200 (CConversations l)) /\
    NoDup (partner <$> l) /\
    (forall id m, messages c !! id = Some m -> involving me m = true ->
       partner_of me m ∈ partner <$> l) /\
    (forall conv, conv ∈ l ->
       messages c !! (lastMessage conv).1 = Some (lastMessage conv).2 /\
       involving me (lastMessage conv).2 = true /\
       partner_of me (lastMessage conv).2 = partner conv /\
       (forall id m, messages c !! id = Some m -> involving me m = true ->
          partner_of me m = partner conv ->
          createdAt m <= createdAt (lastMessage conv).2)) /\
    StronglySorted
      (fun x y => createdAt (lastMessage y).2 <= createdAt (lastMessage x).2) l.
Proof.
  intros Hk me.
  destruct (getConversations_grouped req c Hk) as (l & E & Hnd & Hall & Hconv & Hs).
  exists l. split; [exact E|]. split; [exact Hnd|]. split; [exact Hall|].
  split; [|exact Hs].
  intros conv Hin. destruct (Hconv conv Hin) as (H1 & H2 & H3 & H4 & _).
  by repeat split.
Qed.

Lemma sample_chat_parties_known : parties_known sample_chat.
Proof.
  intros id m Hm. apply elem_of_map_to_list in Hm.
  let l := eval vm_compute in (map_to_list (messages sample_chat)) in
  change (map_to_list (messages sample_chat)) with l in Hm.
  repeat (apply elem_of_cons in Hm as [[= -> ->]|Hm];
          [split; eexists; vm_compute; reflexivity|]).
  by apply elem_of_nil in Hm.
Qed.

Lemma conversations_are_grouped_by_partner_witness :
  exists l,
    getConversations (chat_request 1%N 2%N None None) sample_chat
    = (sample_chat, chat_res 200 (CConversations l)) /\
    NoDup (partner <$> l).
Proof.
  destruct (conversations_are_grouped_by_partner (chat_request 1%N 2%N None None)
              sample_chat sample_chat_parties_known) as (l & E & Hnd & _).
  exists l. split; [exact E | exact Hnd].
Defined.

Lemma mark_read_twice p me now m :
  mark_read p me now (mark_read p me now m) = mark_read p me now m.
Proof.
  unfold mark_read at 2 3. destruct (unread_from p me m) eqn:Hu; [|unfold mark_read; by rewrite Hu].
  unfold mark_read, unread_from. cbn. by rewrite andb_false_r.
Qed.

(** X17: [markAsRead] and [getConversation] leave the same store; in it the
    user has no unread message from the other user, the unread counts of all
    other pairs are as before, every message keeps its sender, receiver,
    content, media and stamp, a message that was read is untouched, no message
    is added or removed, and marking again changes nothing. *)
Theorem marking_read_clears_the_counter (req : ChatRequest) (c : Chat) :
  let me := chat_user req in
  let p := chat_params_userId req in
  let c' := (markAsRead req c).1 in
  (getConversation req c).1 = c' /\
  count_unread p me c' = 0%nat /\
  (forall from to, from <> p \/ to <> me ->
     count_unread from to c' = count_unread from to c) /\
  (forall id m, messages c !! id = Some m ->
     exists m', messages c' !! id = Some m' /\
       msg_sender m' = msg_sender m /\ msg_receiver m' = msg_receiver m /\
       content m' = content m /\ media m' = media m /\
       createdAt m' = createdAt m /\
       (isRead m = true -> m' = m)) /\
  (forall id, messages c !! id = None -> messages c' !! id = None) /\
  (markAsRead req c').1 = c'.
Proof.
  intros me p c'. subst c'. cbn [markAsRead getConversation fst]. fold me p.
  split; [reflexivity|]. split; [|split; [|split; [|split]]].
  - rewrite count_unread_updateMany. by rewrite bool_decide_eq_true_2.
  - intros from to Hne. rewrite count_unread_updateMany.
    rewrite bool_decide_eq_false_2; [done|]. intros [-> ->]. by destruct Hne.
  - intros id m Hm. cbn. rewrite lookup_fmap, Hm. cbn. eexists. split; [reflexivity|].
    unfold mark_read. destruct (unread_from p me m) eqn:Hu; cbn; repeat split; try done.
    intros Hr. unfold unread_from in Hu. by rewrite Hr, andb_false_r in Hu.
  - intros id Hn. cbn. by rewrite lookup_fmap, Hn.
  - unfold updateMany_read, with_messages. cbn. f_equal.
    rewrite <-map_fmap_compose. apply map_fmap_ext. intros ? m _. cbn.
    apply mark_read_twice.
Qed.

Lemma parties_known_updateMany p me now c :
  parties_known c -> parties_known (updateMany_read p me now c).
Proof.
  intros Hk id m'. cbn. rewrite lookup_fmap.
  destruct (messages c !! id) as [m|] eqn:Hm; cbn; [|done]. intros [= <-].
  destruct (Hk id m Hm) as [Hs Hr]. unfold mark_read.
  by destruct (unread_from p me m).
Qed.

(** X18: when the parties of every stored message have accounts, then after
    [getConversation] with a user, [getConversations] reports no unread
    message for the conversation with that user, and for every other partner
    the unread messages there were before. *)
Theorem read_conversation_shows_no_unread (req : ChatRequest) (c : Chat) :
  parties_known c ->
  let me := chat_user req in
  let p := chat_params_userId req in
  let c' := (getConversation req c).1 in
  exists l,
    getConversations req c' = (c', chat_res 200 (CConversations l)) /\
    forall conv, conv ∈ l ->
      unreadCount conv
      = if bool_decide (partner conv = p) then 0%nat
        else count_unread (partner conv) me c.
Proof.
  intros Hk me p c'.
  assert (Hk' : parties_known c') by (by apply parties_known_updateMany).
  destruct (getConversations_grouped req c' Hk') as (l & E & _ & _ & Hconv & _).
  exists l. split; [exact E|]. intros conv Hin.
  destruct (Hconv conv Hin) as (_ & _ & _ & _ & -> & _).
  subst c'. cbn [getConversation fst]. rewrite count_unread_updateMany. fold me p.
  case_bool_decide as H1; case_bool_decide as H2; try done.
  - by destruct H1.
  - destruct H1. by split.
Qed.

Lemma read_conversation_shows_no_unread_witness :
  exists l,
    getConversations (chat_request 1%N 2%N None None)
      (getConversation (chat_request 1%N 2%N None None) sample_chat).1
    = ((getConversation (chat_request 1%N 2%N None None) sample_chat).1,
       chat_res 200 (CConversations l)).
Proof.
  destruct (read_conversation_shows_no_unread (chat_request 1%N 2%N None None)
              sample_chat sample_chat_parties_known) as (l & E & _).
  exists l. exact E.
Defined.

(** ** The follow toggle *)

#[local] Arguments without : simpl never.
#[local] Arguments includes : simpl never.

Lemma includes_elem l id : includes l id = true <-> id ∈ l.
Proof.
  unfold includes. induction l as [|x l IH]; cbn.
  - split; [done | by intros ?%elem_of_nil].
  - rewrite orb_true_iff, IH, bool_decide_eq_true, elem_of_cons.
    split; intros [?|?]; auto.
Qed.

Lemma elem_of_without x id l : x ∈ without id l <-> x ∈ l /\ x <> id.
Proof.
  unfold without. rewrite list_elem_of_In, filter_In, <-list_elem_of_In.
  by rewrite negb_true_iff, bool_decide_eq_false.
Qed.

Lemma without_absent id l : id ∉ l -> without id l = l.
Proof.
  unfold without. induction l as [|x l IH]; [done|]. cbn.
  rewrite not_elem_of_cons. intros [Hne Hl].
  rewrite bool_decide_eq_false_2 by done. cbn. by rewrite IH.
Qed.

Lemma without_app id l1 l2 : without id (l1 ++ l2) = (without id l1 ++ without id l2)%list.
Proof. apply List.filter_app. Qed.


(** X19: following a user one does not follow yet and then sending the same
    request again restores the users as they were: the first answer is
    [Followed successfully], after which each user is in the other's list, the
    second is [Unfollowed successfully]. *)
Theorem follow_then_unfollow_restores (req : FollowRequest) (n : Network)
  (me them : Member) :
  follow_params_id req <> follow_user req ->
  people n !! follow_user req = Some me ->
  people n !! follow_params_id req = Some them ->
  follow_params_id req ∉ following me ->
  follow_user req ∉ followers them ->
  let first := followUser req n in
  let second := followUser req first.1 in
  follow_body first.2 = FToggled "Followed successfully" true /\
  (exists me' them',
     people first.1 !! follow_user req = Some me' /\
     people first.1 !! follow_params_id req = Some them' /\
     follow_params_id req ∈ following me' /\ follow_user req ∈ followers them') /\
  follow_body second.2 = FToggled "Unfollowed successfully" false /\
  people second.1 = people n.
Proof.
  intros Hne Hme Hthem Hnf Hnr first second.
  assert (Hinc : includes (following me) (follow_params_id req) = false).
  { apply not_true_iff_false. by rewrite includes_elem. }
  assert (E1 : first
    = ({| people := <[follow_params_id req :=
                        set_followers (followers them ++ [follow_user req]) them]>
                      (<[follow_user req :=
                           set_following (following me ++ [follow_params_id req]) me]>
                         (people n));
          follow_notices := follow_notices n ++ [(follow_params_id req, follow_user req)];
          follow_events := follow_events n ++ [(follow_params_id req, follow_user req)] |},
       {| follow_status := 200; follow_body := FToggled "Followed successfully" true |})).
  { unfold first, followUser. rewrite Hme, Hthem.
    rewrite bool_decide_eq_false_2 by done. by rewrite Hinc. }
  split; [by rewrite E1|]. split.
  { rewrite E1. cbn. eexists _, _.
    rewrite lookup_insert_ne, !lookup_insert_eq by done.
    repeat split; cbn; rewrite elem_of_app; right; by left. }
  assert (Hinc2 : includes (following me ++ [follow_params_id req])
                     (follow_params_id req) = true).
  { apply includes_elem. rewrite elem_of_app. right. by left. }
  assert (E2 : second
    = ({| people :=
            <[follow_params_id req :=
                set_followers
                  (without (follow_user req) (followers them ++ [follow_user req]))
                  (set_followers (followers them ++ [follow_user req]) them)]>
              (<[follow_user req :=
                   set_following
                     (without (follow_params_id req)
                        (following me ++ [follow_params_id req]))
                     (set_following (following me ++ [follow_params_id req]) me)]>
                 (people first.1));
          follow_notices := follow_notices first.1;
          follow_events := follow_events first.1 |},
       {| follow_status := 200;
          follow_body := FToggled "Unfollowed successfully" false |})).
  { unfold second, followUser. rewrite E1. cbn [fst people].
    rewrite lookup_insert_eq, lookup_insert_ne, lookup_insert_eq by done.
    rewrite bool_decide_eq_false_2 by done. cbn [following set_following].
    by rewrite Hinc2. }
  rewrite E2. cbn [fst snd follow_body people]. split; [done|].
  rewrite E1. cbn [fst people].
  rewrite !without_app, (without_absent _ _ Hnf), (without_absent _ _ Hnr).
  unfold without. cbn [List.filter].
  rewrite !bool_decide_eq_true_2 by done. cbn [negb]. rewrite !app_nil_r.
  unfold set_following, set_followers. cbn.
  apply map_eq. intros k.
  destruct (decide (k = follow_params_id req)) as [->|Hk1].
  { rewrite lookup_insert_eq, Hthem. by destruct them. }
  rewrite lookup_insert_ne by done.
  destruct (decide (k = follow_user req)) as [->|Hk2].
  { rewrite lookup_insert_eq, Hme. by destruct me. }
  by rewrite !lookup_insert_ne by done.
Qed.

Lemma follow_then_unfollow_restores_witness :
  let req := {| follow_params_id := 3%N; follow_user := 1%N |} in
  people (followUser req (followUser req sample_network).1).1
  = people sample_network.
Proof.
  intros req.
  destruct (follow_then_unfollow_restores req sample_network
              {| account := alice; following := [2%N]; followers := [] |}
              {| account := carol; following := []; followers := [] |})
    as (_ & _ & _ & E).
  - discriminate.
  - reflexivity.
  - reflexivity.
  - cbn. intros H%list_elem_of_singleton. discriminate H.
  - cbn. apply not_elem_of_nil.
  - exact E.
Defined.








Lemma followUser_refused (req : FollowRequest) (n : Network) :
  follow_status (followUser req n).2 <> 200 -> (followUser req n).1 = n.
Proof.
  unfold followUser.
  destruct (people n !! follow_params_id req) as [them|]; [|done].
  destruct (people n !! follow_user req) as [me|]; [|done].
  case_bool_decide; [done|].
  by destruct (includes (following me) (follow_params_id req)).
Qed.

(** X21: a follow request that is not answered with 200 leaves the users, the
    notifications and the events as they were: an unknown target is answered
    with 404, the own id with 400; and the answer is 200 exactly when the two
    users are known and distinct. *)
Theorem refused_follow_changes_nothing (req : FollowRequest) (n : Network) :
  (follow_status (followUser req n).2 <> 200 -> (followUser req n).1 = n) /\
  (people n !! follow_params_id req = None ->
   (followUser req n).2
   = {| follow_status := 404; follow_body := FMessage "User not found" |}) /\
  (is_Some (people n !! follow_user req) ->
   follow_params_id req = follow_user req ->
   (followUser req n).2
   = {| follow_status := 400;
        follow_body := FMessage "You cannot follow yourself" |}) /\
  (follow_status (followUser req n).2 = 200 <->
   is_Some (people n !! follow_params_id req) /\
   is_Some (people n !! follow_user req) /\
   follow_params_id req <> follow_user req).
Proof.
  split; [apply followUser_refused|]. unfold followUser.
  destruct (people n !! follow_params_id req) as [them|] eqn:Ht.
  - destruct (people n !! follow_user req) as [me|] eqn:Hm.
    + case_bool_decide as Hid.
      * repeat split; try done. by intros (_ & _ & ?).
      * destruct (includes (following me) (follow_params_id req));
          repeat split; try done; by eexists.
    + repeat split; try done; try by intros [? ?].
      by intros (_ & [? ?] & _).
  - split; [done|]. split.
    + intros [me Hm] E. rewrite E, Hm in Ht. done.
    + split; [done|]. by intros ([? ?] & _).
Qed.

(** X22: when a follow request is answered with 200, the flag of the answer
    says whether the current user follows the target afterwards, which is the
    opposite of before; a notification and an event go to the target when the
    user starts to follow, and none when the user stops. *)
Theorem follow_answer_tells_the_new_state (req : FollowRequest) (n : Network)
  (me : Member) :
  people n !! follow_user req = Some me ->
  follow_status (followUser req n).2 = 200 ->
  exists me' msg b,
    people (followUser req n).1 !! follow_user req = Some me' /\
    follow_body (followUser req n).2 = FToggled msg b /\
    (b = true <-> follow_params_id req ∈ following me') /\
    (b = true <-> follow_params_id req ∉ following me) /\
    follow_notices (followUser req n).1
    = (if b then follow_notices n ++ [(follow_params_id req, follow_user req)]
       else follow_notices n)%list /\
    follow_events (followUser req n).1
    = (if b then follow_events n ++ [(follow_params_id req, follow_user req)]
       else follow_events n)%list.
Proof.
  intros Hme. unfold followUser. rewrite Hme.
  destruct (people n !! follow_params_id req) as [them|] eqn:Ht; [|done].
  case_bool_decide as Hid; [done|].
  destruct (includes (following me) (follow_params_id req)) eqn:Hi; intros _.
  - apply includes_elem in Hi. eexists _, _, false. cbn.
    rewrite lookup_insert_ne, lookup_insert_eq by done.
    repeat split; try done. cbn. rewrite elem_of_without. by intros [_ ?].
  - apply not_true_iff_false in Hi. rewrite includes_elem in Hi.
    eexists _, _, true. cbn.
    rewrite lookup_insert_ne, lookup_insert_eq by done.
    repeat split; try done. cbn. intros _. rewrite elem_of_app. right. by left.
Qed.

Lemma follow_answer_tells_the_new_state_witness :
  exists msg,
    follow_body
      (followUser {| follow_params_id := 2%N; follow_user := 1%N |} sample_network).2
    = FToggled msg false.
Proof.
  destruct (follow_answer_tells_the_new_state
              {| follow_params_id := 2%N; follow_user := 1%N |} sample_network
              {| account := alice; following := [2%N]; followers := [] |})
    as (me' & msg & b & _ & Hb & _ & Hwas & _).
  - reflexivity.
  - reflexivity.
  - exists msg. rewrite Hb. f_equal. destruct b; [|reflexivity].
    exfalso. apply (proj1 Hwas eq_refl). cbn. by left.
Defined.
